(** * Zomato dashboard: the filter-and-aggregate pipeline of [app.py]

    The script loads a table of restaurants, restricts it to the locations
    picked in the sidebar and feeds the restricted table to a handful of
    aggregations (value counts, group means, a correlation matrix) whose
    results are handed to the charting calls.

    The development has these parts:
    - [Pandas]: the dataframe operations the script calls, as functions on
      rows and cells;
    - [App]: the script itself, top to bottom, in a small output-and-exception
      monad (what is written to the page, and whether the pass ends normally);
    - [Sample]: a few small tables;
    - [Spec]: the notions the properties are stated with;
    - the properties of the pipeline, stage by stage.

    Cells hold rationals.  The two places where the script leaves the
    numbers it was given are modelled with their rounding: a mean is the
    float64 nearest to the quotient of an exact sum, and the correlation
    casts its columns to float64.  The running sums of the correlation are
    exact reals, so a coefficient is the code's only where that makes no
    difference; the properties say where. *)

From Stdlib Require Import List String Ascii Bool Arith PeanoNat Lia.
From Stdlib Require Import ZArith QArith Qcanon.
From Stdlib Require Import Reals Lra Qreals.
From Stdlib Require Import Sorting.Sorted.
Import ListNotations.

Close Scope Q_scope.
Close Scope Qc_scope.
Close Scope R_scope.
Open Scope string_scope.
Open Scope list_scope.
Open Scope nat_scope.

Set Implicit Arguments.

(* ================================================================= *)
(** ** Exceptions and results *)

(** What a Python call can raise in this script. [StopException] is what
    [st.stop()] raises to end the current pass. *)
Inductive exn : Type :=
| KeyError (key : string)
| ValueError (what : string)
| TypeError
| FileError (what : string)
| StopException.

Inductive result (A : Type) : Type :=
| Ok (a : A)
| Raise (e : exn).

Arguments Ok {A} a.
Arguments Raise {A} e.

(* ================================================================= *)
(** ** The dataframe model *)

Module Pandas.

(** Storage type of a column, as far as the script tells them apart.
    [object] is the storage type that compares equal to ['object'].
    [float64] and [int64] stand for the storage types that
    [select_dtypes(include=['float64', 'int64'])] keeps, which it decides
    by the scalar type ([dtype.type]) being NumPy's float64 or int64: the
    two NumPy types, and with them the nullable [Float64] and [Int64].
    [other] stands for the rest (bool, category, datetime64, narrower or
    unsigned numbers, ...). *)
Inductive dtype : Type := object | float64 | int64 | other.

Definition dtype_eqb (a b : dtype) : bool :=
  match a, b with
  | object, object | float64, float64 | int64, int64 | other, other => true
  | _, _ => false
  end.

(** A cell: a string, a number, or the missing value.  A number is the
    rational it denotes, as every finite float64 and every int64 is one, in
    canonical form, so that equal numbers are equal cells. *)
Inductive cell : Type :=
| Str (s : string)
| Num (q : Qc)
| NaN.

Definition cell_eqb (a b : cell) : bool :=
  match a, b with
  | Str s, Str t => String.eqb s t
  | Num p, Num q => Qeq_bool (this p) (this q)
  | NaN, NaN => true
  | _, _ => false
  end.

Definition is_nan (c : cell) : bool :=
  match c with NaN => true | _ => false end.

(** A row keeps its index label and one cell per column. *)
Record Row : Type := mkRow { label : nat; cells : list cell }.

Record DataFrame : Type := mkDF {
  columns : list (string * dtype);
  rows : list Row
}.

Record Series : Type := mkSeries { sdtype : dtype; values : list cell }.

(** [df.empty]: an axis of length zero. *)
Definition empty (df : DataFrame) : bool :=
  match rows df, columns df with
  | [], _ | _, [] => true
  | _, _ => false
  end.

(** [df.shape[0]] *)
Definition nrows (df : DataFrame) : nat := List.length (rows df).

(** Position and storage type of the first column called [name]. *)
Fixpoint position (name : string) (cols : list (string * dtype))
  : option (nat * dtype) :=
  match cols with
  | [] => None
  | (n, dt) :: cols' =>
      if String.eqb n name then Some (0, dt)
      else match position name cols' with
           | Some (i, dt') => Some (S i, dt')
           | None => None
           end
  end.

Definition cell_at (i : nat) (r : Row) : cell := nth i (cells r) NaN.

(** [df[name]] *)
Definition getitem (df : DataFrame) (name : string) : result Series :=
  match position name (columns df) with
  | Some (i, dt) => Ok (mkSeries dt (map (cell_at i) (rows df)))
  | None => Raise (KeyError name)
  end.

(** [name in df.columns] *)
Definition has_column (df : DataFrame) (name : string) : bool :=
  existsb (fun c => String.eqb (fst c) name) (columns df).

(** [value in selection], the test [isin] makes for each cell. *)
Definition member (c : cell) (sel : list cell) : bool :=
  existsb (cell_eqb c) sel.

(** [s.isin(sel)]: the boolean mask. *)
Definition isin (s : Series) (sel : list cell) : list bool :=
  map (fun c => member c sel) (values s).

(** Positions of [l] where the mask is set. *)
Fixpoint select (A : Type) (mask : list bool) (l : list A) : list A :=
  match mask, l with
  | b :: mask', x :: l' =>
      if b then x :: select mask' l' else select mask' l'
  | _, _ => []
  end.

(** [df[mask]] *)
Definition getitem_mask (df : DataFrame) (mask : list bool) : DataFrame :=
  mkDF (columns df) (select mask (rows df)).

(** [df.copy()] *)
Definition copy (df : DataFrame) : DataFrame :=
  mkDF (columns df) (rows df).

(** [df.head(n)] *)
Definition head (n : nat) (df : DataFrame) : DataFrame :=
  mkDF (columns df) (firstn n (rows df)).

(** Distinct elements in order of first appearance. *)
Fixpoint uniq (A : Type) (eqb : A -> A -> bool) (l : list A) : list A :=
  match l with
  | [] => []
  | x :: l' => x :: filter (fun y => negb (eqb y x)) (uniq eqb l')
  end.

(** [s.unique()]: the distinct values in order of first appearance, the
    missing value included. *)
Definition unique (l : list cell) : list cell := uniq cell_eqb l.

(** Stable insertion sort: an element is placed before the first element it
    may precede, so elements that compare equal keep their order. *)
Fixpoint insert (A : Type) (le : A -> A -> bool) (x : A) (l : list A)
  : list A :=
  match l with
  | [] => [x]
  | y :: l' => if le x y then x :: y :: l' else y :: insert le x l'
  end.

Fixpoint sort (A : Type) (le : A -> A -> bool) (l : list A) : list A :=
  match l with
  | [] => []
  | x :: l' => insert le x (sort le l')
  end.

(** Number of cells of [l] equal to [c]. *)
Definition count (c : cell) (l : list cell) : nat :=
  List.length (filter (cell_eqb c) l).

Definition dropna (l : list cell) : list cell :=
  filter (fun c => negb (is_nan c)) l.

(** Frequencies of the non-missing values, in order of first appearance. *)
Definition frequencies (l : list cell) : list (cell * nat) :=
  map (fun c => (c, count c l)) (unique (dropna l)).

(** Order of [value_counts]: larger counts first. *)
Definition count_ge (a b : cell * nat) : bool := snd b <=? snd a.

(** Modelled from the spec: the order [value_counts] gives to values with
    the same count is fixed inside the dataframe library, not in the
    script; it is taken as the spec has it, a stable sort of the values in
    order of first appearance.  The rest is [s.value_counts()] as
    documented: frequencies of the non-missing values, by decreasing
    count. *)
Definition value_counts (l : list cell) : list (cell * nat) :=
  sort count_ge (frequencies l).

(** Keep the columns marked in [keep], in every row. *)
Definition keep_columns (keep : list bool) (df : DataFrame) : DataFrame :=
  mkDF (select keep (columns df))
       (map (fun r => mkRow (label r) (select keep (cells r))) (rows df)).

(** [df.drop(columns=[name])] *)
Definition drop (df : DataFrame) (name : string) : DataFrame :=
  keep_columns (map (fun c => negb (String.eqb (fst c) name)) (columns df)) df.

(** [df.select_dtypes(include=...)] *)
Definition select_dtypes (include : list dtype) (df : DataFrame) : DataFrame :=
  keep_columns (map (fun c => existsb (dtype_eqb (snd c)) include) (columns df))
               df.

(** The numbers of a list of cells. *)
Fixpoint numbers (l : list cell) : list Qc :=
  match l with
  | [] => []
  | Num q :: l' => q :: numbers l'
  | _ :: l' => numbers l'
  end.

Definition is_str (c : cell) : bool :=
  match c with Str _ => true | _ => false end.

Definition Qc_of_nat (n : nat) : Qc := Q2Qc (inject_Z (Z.of_nat n)).

Definition Qc_sum (l : list Qc) : Qc := fold_right Qcplus (Q2Qc 0) l.

(** *** Rounding to float64 *)

(** Nearest integer to [a / b], a half going to the even neighbour. *)
Definition round_half_even (a b : Z) : Z :=
  let q := (a / b)%Z in
  let r := (a mod b)%Z in
  match (2 * r ?= b)%Z with
  | Lt => q
  | Gt => (q + 1)%Z
  | Eq => if Z.even q then q else (q + 1)%Z
  end.

(** The binary exponent of [a / b], for positive [a] and [b]: the [e] with
    [2 ^ e <= a / b < 2 ^ (e + 1)]. *)
Definition binary_exponent (a b : Z) : Z :=
  let e0 := (Z.log2 a - Z.log2 b)%Z in
  if (0 <=? e0)%Z
  then (if (b * 2 ^ e0 <=? a)%Z then e0 else e0 - 1)%Z
  else (if (b <=? a * 2 ^ (- e0))%Z then e0 else e0 - 1)%Z.

(** The float64 nearest to [a / b], for positive [a] and [b]: 53
    significant bits, fewer below [2 ^ -1022], halves to even; [None] when
    the result is beyond the largest float64, where the code has an
    infinity. *)
Definition float64_pos (a b : Z) : option Q :=
  let k := (Z.max (binary_exponent a b) (-1022) - 52)%Z in
  if (0 <=? k)%Z
  then
    let n := round_half_even a (b * 2 ^ k) in
    if (2 ^ 1024 <=? n * 2 ^ k)%Z then None
    else Some (inject_Z (n * 2 ^ k))
  else
    Some (Qmake (round_half_even (a * 2 ^ (- k)) b) (Z.to_pos (2 ^ (- k)))).

(** The float64 nearest to a rational. *)
Definition nearest_float64 (q : Qc) : option Qc :=
  match Qnum q with
  | Z0 => Some (Q2Qc 0)
  | Zpos a =>
      match float64_pos (Zpos a) (Zpos (Qden q)) with
      | Some v => Some (Q2Qc (Qred v))
      | None => None
      end
  | Zneg a =>
      match float64_pos (Zpos a) (Zpos (Qden q)) with
      | Some v => Some (Q2Qc (Qred (Qopp v)))
      | None => None
      end
  end.

(** A cell as a float64: what a cast of a column to float gives, and what
    a float result is stored as.  An infinity is not a cell of this model:
    it is given as the missing value, which is how the correlation treats
    it; no float64 or int64 value casts to one. *)
Definition as_float64 (c : cell) : cell :=
  match c with
  | Num q => match nearest_float64 q with
             | Some r => Num r
             | None => NaN
             end
  | _ => c
  end.

(** [s.mean()]: the mean of the non-missing values, a float64; the missing
    value when there is none; text cannot be averaged.  The sum is exact
    here, as it is in the code as long as the partial sums are integers
    below [2 ^ 53]; the quotient is rounded. *)
Definition mean (l : list cell) : result cell :=
  if existsb is_str l then Raise TypeError
  else match numbers l with
       | [] => Ok NaN
       | xs => Ok (as_float64
                     (Num (Qcdiv (Qc_sum xs) (Qc_of_nat (List.length xs)))))
       end.

(** Order of group keys: numbers before text, each in its own order. *)
Definition cell_leb (a b : cell) : bool :=
  match a, b with
  | Num p, Num q => Qle_bool (this p) (this q)
  | Num _, _ => true
  | Str _, Num _ => false
  | Str s, Str t => String.leb s t
  | Str _, NaN => true
  | NaN, NaN => true
  | NaN, _ => false
  end.

Definition key : Type := (cell * cell)%type.

Definition key_eqb (a b : key) : bool :=
  cell_eqb (fst a) (fst b) && cell_eqb (snd a) (snd b).

Definition key_leb (a b : key) : bool :=
  if cell_eqb (fst a) (fst b) then cell_leb (snd a) (snd b)
  else cell_leb (fst a) (fst b).

Definition key_at (i j : nat) (r : Row) : key := (cell_at i r, cell_at j r).

Definition key_present (k : key) : bool :=
  negb (is_nan (fst k)) && negb (is_nan (snd k)).

(** The group keys: the distinct key pairs without a missing component,
    sorted. *)
Definition group_keys (i j : nat) (rs : list Row) : list key :=
  sort key_leb (uniq key_eqb (filter key_present (map (key_at i j) rs))).

(** The rows of one group. *)
Definition group_rows (i j : nat) (k : key) (rs : list Row) : list Row :=
  filter (fun r => key_eqb (key_at i j r) k) rs.

(** One output row per group, numbered from zero, or the first error. *)
Fixpoint group_means (i j v : nat) (rs : list Row) (ks : list key) (n : nat)
  : result (list Row) :=
  match ks with
  | [] => Ok []
  | k :: ks' =>
      match mean (map (cell_at v) (group_rows i j k rs)) with
      | Raise e => Raise e
      | Ok m =>
          match group_means i j v rs ks' (S n) with
          | Raise e => Raise e
          | Ok out => Ok (mkRow n [fst k; snd k; m] :: out)
          end
      end
  end.

(** [df.groupby([k1, k2])[v].mean().reset_index()] *)
Definition groupby_mean (df : DataFrame) (k1 k2 v : string)
  : result DataFrame :=
  match position k1 (columns df) with
  | None => Raise (KeyError k1)
  | Some (i, d1) =>
      match position k2 (columns df) with
      | None => Raise (KeyError k2)
      | Some (j, d2) =>
          match position v (columns df) with
          | None => Raise (KeyError ("Column not found: " ++ v))
          | Some (c, _) =>
              match group_means i j c (rows df)
                                (group_keys i j (rows df)) 0 with
              | Raise e => Raise e
              | Ok out => Ok (mkDF [(k1, d1); (k2, d2); (v, float64)] out)
              end
          end
      end
  end.

(** *** Pearson correlation *)

(** [DataFrame.corr()] with its defaults (Pearson, at least one observation
    per pair): the columns are cast to float64; then, for each pair of
    columns, one pass over the rows keeps the number of observations, the
    two running means, the two sums of squared distances to the mean and
    the sum of co-distances.  The cast is rounded as the code rounds it;
    the sums of the pass are exact, which the code's are not. *)
Record moments : Type := mkMoments {
  nobs : nat;
  meanx : R; meany : R;
  ssqdm_x : R; ssqdm_y : R;
  covxy : R
}.

Definition moments0 : moments := mkMoments 0 0 0 0 0 0.

Definition observe (a : moments) (vx vy : R) : moments :=
  let n := S (nobs a) in
  let dx := (vx - meanx a)%R in
  let dy := (vy - meany a)%R in
  let mx := (meanx a + 1 / INR n * dx)%R in
  let my := (meany a + 1 / INR n * dy)%R in
  mkMoments n mx my
            (ssqdm_x a + (vx - mx) * dx)%R
            (ssqdm_y a + (vy - my) * dy)%R
            (covxy a + (vx - mx) * dy)%R.

(** The loop over the rows: a row counts when both cells hold a number. *)
Fixpoint welford (a : moments) (xs ys : list cell) : moments :=
  match xs, ys with
  | x :: xs', y :: ys' =>
      match x, y with
      | Num p, Num q => welford (observe a (Q2R p) (Q2R q)) xs' ys'
      | _, _ => welford a xs' ys'
      end
  | _, _ => a
  end.

(** One coefficient; [None] is the undefined value, given when there is
    no observation or when the divisor is zero. *)
Definition nancorr (xs ys : list cell) : option R :=
  let a := welford moments0 xs ys in
  if nobs a <? 1 then None
  else
    let divisor := sqrt (ssqdm_x a * ssqdm_y a) in
    if Req_dec_T divisor 0 then None else Some (covxy a / divisor)%R.

Definition column_values (df : DataFrame) (i : nat) : list cell :=
  map (cell_at i) (rows df).

(** The column as [corr] reads it: the frame is first cast to float64. *)
Definition float_column (df : DataFrame) (i : nat) : list cell :=
  map as_float64 (column_values df i).

(** One coefficient is computed for each pair [yi <= xi] and written to
    both [(xi, yi)] and [(yi, xi)]. *)
Definition corr_entry (df : DataFrame) (i j : nat) : option R :=
  nancorr (float_column df (Nat.max i j)) (float_column df (Nat.min i j)).

Record Matrix : Type := mkMatrix {
  labels : list string;
  entries : list (list (option R))
}.

(** [df.corr()] *)
Definition corr (df : DataFrame) : Matrix :=
  let ks := seq 0 (List.length (columns df)) in
  mkMatrix (map fst (columns df))
           (map (fun i => map (fun j => corr_entry df i j) ks) ks).

(** Entry [(i, j)] of a matrix, when it exists. *)
Definition entry (m : Matrix) (i j : nat) : option (option R) :=
  match nth_error (entries m) i with
  | Some row => nth_error row j
  | None => None
  end.

End Pandas.

(* ================================================================= *)
(** ** The script *)

Module App.
Import Pandas.

(** What one pass writes to the page.  Static furniture (page configuration,
    style sheet, images, rules, headings) is [Decor]; the other events carry
    the data the call is given. *)
Inductive event : Type :=
| Decor (what : string)
| Radio
| MultiSelect (options default : list cell)
| SelectBox
| ErrorBox (msg : string)
| WarningBox (msg : string)
| Metric (title : string) (value : cell)
| Preview (df : DataFrame)
| Pie (column : string) (df : DataFrame)
| Histogram (column : string) (df : DataFrame)
| Describe (s : Series)
| ValueCounts (table : list (cell * nat))
| Scatter (df : DataFrame)
| Bar (top_loc : list (cell * nat))
| Box (df : DataFrame)
| Heatmap (corr : Matrix)
| Treemap (treemap_df : DataFrame).

(** A computation writes events and ends with a value or an exception. *)
Definition M (A : Type) : Type := (list event * result A)%type.

Definition ret (A : Type) (a : A) : M A := ([], Ok a).

Definition bind (A B : Type) (m : M A) (k : A -> M B) : M B :=
  match m with
  | (out, Ok a) => let (out', r) := k a in (out ++ out', r)
  | (out, Raise e) => (out, Raise e)
  end.

Definition emit (e : event) : M unit := ([e], Ok tt).

Definition raise (A : Type) (e : exn) : M A := ([], Raise e).

Definition lift (A : Type) (r : result A) : M A := ([], r).

Notation "x <- m ;; k" := (bind m (fun x => k))
  (at level 61, m at next level, right associativity).
Notation "m ;;; k" := (bind m (fun _ => k))
  (at level 61, right associativity).

Inductive Page : Type := Home | Univariate | Bivariate | Multivariate.

(** The choices of the column selector. *)
Inductive Choice : Type := rate | cost | online_order | book_table | rest_type.

Definition choice_name (c : Choice) : string :=
  match c with
  | rate => "rate"
  | cost => "cost"
  | online_order => "online_order"
  | book_table => "book_table"
  | rest_type => "rest_type"
  end.

(** What one pass reads: the two files, and the state of the three widgets. *)
Record Env : Type := mkEnv {
  read_parquet : result DataFrame;
  read_csv : result DataFrame;
  page : Page;
  selected_location : list cell;
  col_to_plot : Choice
}.

(** *** Loading *)

Definition load_data (env : Env) : result DataFrame :=
  match (match read_parquet env with
         | Ok df => Ok df
         | Raise _ => read_csv env
         end) with
  | Raise e => Raise e
  | Ok df =>
      if has_column df "Unnamed: 0" then Ok (drop df "Unnamed: 0")
      else Ok df
  end.

(** *** Filter stage *)

(** Truth value of a Python list. *)
Definition truthy (A : Type) (l : list A) : bool :=
  match l with [] => false | _ => true end.

Definition df_filtered (df : DataFrame) (selected : list cell)
  : result DataFrame :=
  if truthy selected then
    match getitem df "location" with
    | Ok loc => Ok (getitem_mask df (isin loc selected))
    | Raise e => Raise e
    end
  else Ok (copy df).

(** *** Pages *)

(** A chart call checks that the columns it is told to draw are columns of
    the frame it is given. *)
Fixpoint px_columns (df : DataFrame) (names : list string) : M unit :=
  match names with
  | [] => ret tt
  | n :: names' =>
      if has_column df n then px_columns df names'
      else raise unit (ValueError n)
  end.

Definition nat_cell (n : nat) : cell := Num (Qc_of_nat n).

Definition home (view : DataFrame) : M unit :=
  emit (Decor "header") ;;;
  emit (Decor "banner") ;;;
  emit (Decor "kpi heading") ;;;
  emit (Metric "Total Restaurants" (nat_cell (nrows view))) ;;;
  r <- lift (getitem view "rate") ;;
  mr <- lift (mean (values r)) ;;
  emit (Metric "Avg Rating" mr) ;;;
  c <- lift (getitem view "cost") ;;
  mc <- lift (mean (values c)) ;;
  emit (Metric "Avg Cost (2 People)" mc) ;;;
  o <- lift (getitem view "online_order") ;;
  emit (Metric "Online Delivery"
          (nat_cell (nrows (getitem_mask view (isin o [Str "Yes"]))))) ;;;
  emit (Decor "rule") ;;;
  emit (Decor "preview heading") ;;;
  emit (Preview (head 100 view)).

(** The two tests of the univariate page. *)
Definition chart_is_pie (s : Series) : bool :=
  dtype_eqb (sdtype s) object || (List.length (unique (values s)) <? 20).

Definition stats_is_describe (s : Series) : bool :=
  negb (dtype_eqb (sdtype s) object).

Definition univariate (view : DataFrame) (c : Choice) : M unit :=
  emit (Decor "header") ;;;
  emit SelectBox ;;;
  s <- lift (getitem view (choice_name c)) ;;
  (if chart_is_pie s then emit (Pie (choice_name c) view)
   else emit (Histogram (choice_name c) view)) ;;;
  emit (Decor "stats heading") ;;;
  (if stats_is_describe s then emit (Describe s)
   else emit (ValueCounts (value_counts (values s)))).

(** [s.value_counts().head(10)] *)
Definition top10 (s : Series) : list (cell * nat) :=
  firstn 10 (value_counts (values s)).

Definition bivariate (view : DataFrame) : M unit :=
  emit (Decor "header") ;;;
  emit (Decor "tabs") ;;;
  emit (Decor "price heading") ;;;
  px_columns view ["cost"; "rate"; "online_order"] ;;;
  emit (Scatter view) ;;;
  emit (Decor "locations heading") ;;;
  loc <- lift (getitem view "location") ;;
  emit (Bar (top10 loc)) ;;;
  emit (Decor "booking heading") ;;;
  px_columns view ["book_table"; "rate"] ;;;
  emit (Box view).

(** The table handed to the treemap. *)
Definition treemap_df (view : DataFrame) : result DataFrame :=
  match groupby_mean view "location" "rest_type" "cost" with
  | Raise e => Raise e
  | Ok groups =>
      match getitem view "location" with
      | Raise e => Raise e
      | Ok loc =>
          let top_locations_list := map fst (top10 loc) in
          match getitem groups "location" with
          | Raise e => Raise e
          | Ok gloc => Ok (getitem_mask groups (isin gloc top_locations_list))
          end
      end
  end.

Definition select_warning : string :=
  "Please select at least one location from the sidebar.".

Definition multivariate (view : DataFrame) : M unit :=
  emit (Decor "header") ;;;
  emit (Decor "heatmap heading") ;;;
  emit (Heatmap (corr (select_dtypes [float64; int64] view))) ;;;
  emit (Decor "treemap heading") ;;;
  (if negb (empty view) then
     t <- lift (treemap_df view) ;;
     px_columns t ["location"; "rest_type"; "cost"] ;;;
     emit (Treemap t)
   else emit (WarningBox select_warning)).

Definition load_error : string :=
  "Data could not be loaded. Please check the file.".

(** *** One pass of the script, top to bottom *)

Definition run (env : Env) : M unit :=
  emit (Decor "page config") ;;;
  emit (Decor "style sheet") ;;;
  df <- lift (load_data env) ;;
  emit (Decor "logo") ;;;
  emit (Decor "rule") ;;;
  emit Radio ;;;
  emit (Decor "rule") ;;;
  emit (Decor "filter heading") ;;;
  (if negb (empty df) then
     loc <- lift (getitem df "location") ;;
     emit (MultiSelect (unique (values loc)) (firstn 5 (unique (values loc)))) ;;;
     view <- lift (df_filtered df (selected_location env)) ;;
     match page env with
     | Home => home view
     | Univariate => univariate view (col_to_plot env)
     | Bivariate => bivariate view
     | Multivariate => multivariate view
     end
   else
     emit (ErrorBox load_error) ;;;
     raise unit StopException).

(** The events of a pass and how it ended. *)
Definition output (A : Type) (m : M A) : list event := fst m.
Definition outcome (A : Type) (m : M A) : result A := snd m.

End App.

(* ================================================================= *)
(** ** A small dataset *)

Module Sample.
Import Pandas App.

Definition num (z : Z) : cell := Num (Q2Qc (inject_Z z)).

Definition schema : list (string * dtype) :=
  [("location", object); ("rest_type", object); ("online_order", object);
   ("book_table", object); ("rate", float64); ("cost", int64)].

Definition restaurant (n : nat) (loc ty online book : string) (r c : Z) : Row :=
  mkRow n [Str loc; Str ty; Str online; Str book; num r; num c].

(** Three restaurants, two in A and one in B. *)
Definition three : DataFrame :=
  mkDF schema
       [restaurant 0 "A" "Cafe" "Yes" "No" 4 300;
        restaurant 1 "A" "Bar" "No" "Yes" 3 500;
        restaurant 2 "B" "Cafe" "Yes" "No" 5 700].

(** The same table as the text file has it, with the index column the
    export left behind. *)
Definition three_csv : DataFrame :=
  mkDF (("Unnamed: 0", int64) :: schema)
       (map (fun r => mkRow (label r) (nat_cell (label r) :: cells r))
            (rows three)).

(** Six restaurants in three locations. *)
Definition six : DataFrame :=
  mkDF schema
       [restaurant 0 "A" "Cafe" "Yes" "No" 4 300;
        restaurant 1 "A" "Cafe" "No" "Yes" 3 500;
        restaurant 2 "B" "Cafe" "Yes" "No" 5 700;
        restaurant 3 "C" "Bar" "Yes" "No" 4 200;
        restaurant 4 "C" "Bar" "No" "No" 2 400;
        restaurant 5 "C" "Pub" "Yes" "Yes" 3 900].

(** A single restaurant. *)
Definition one : DataFrame :=
  mkDF schema [restaurant 0 "A" "Cafe" "Yes" "No" 4 300].



Definition env_of (df : DataFrame) (p : Page) (sel : list cell) (c : Choice)
  : Env :=
  mkEnv (Ok df) (Raise (FileError "cleaned_df.csv")) p sel c.

End Sample.

(* ================================================================= *)
(** ** Notions used to state the properties *)

Module Spec.
Import Pandas App.

(** [subsequence l1 l2]: [l1] is [l2] with some elements left out, the
    others in the same order. *)
Inductive subsequence (A : Type) : list A -> list A -> Prop :=
| sub_nil : subsequence [] []
| sub_keep x l1 l2 : subsequence l1 l2 -> subsequence (x :: l1) (x :: l2)
| sub_skip x l1 l2 : subsequence l1 l2 -> subsequence l1 (x :: l2).

(** [precedes a b l]: an occurrence of [a] in [l] comes before an
    occurrence of [b]. *)
Inductive precedes (A : Type) (a b : A) : list A -> Prop :=
| prec_here l : In b l -> precedes a b (a :: l)
| prec_later x l : precedes a b l -> precedes a b (x :: l).

(** The cell of a row of [df] in the column called [name]. *)
Definition field (df : DataFrame) (name : string) (r : Row) : cell :=
  match position name (columns df) with
  | Some (i, _) => cell_at i r
  | None => NaN
  end.

(** The location of a row of [df]. *)
Definition location_of (df : DataFrame) (r : Row) : cell :=
  field df "location" r.

(** A pass shows no warning. *)
Definition no_warning (A : Type) (m : M A) : Prop :=
  forall msg, ~ In (WarningBox msg) (output m).

(** The events that come from the filtered view: everything but the static
    furniture, the navigation radio and the error box. *)
Definition from_view (e : event) : bool :=
  match e with
  | Decor _ | Radio | ErrorBox _ => false
  | _ => true
  end.

(** The column an export leaves behind, and the columns that are not it. *)
Definition index_column : string := "Unnamed: 0".

Definition kept (c : string * dtype) : bool :=
  negb (String.eqb (fst c) index_column).

(** What a row of the group table says about its group. *)
Definition group_row (i j c : nat) (rs : list Row) (k : key) (r : Row) : Prop :=
  exists m, mean (map (cell_at c) (group_rows i j k rs)) = Ok m
            /\ cells r = [fst k; snd k; m].

(** The total of a list of numbers. *)
Fixpoint total_of (qs : list Qc) : Qc :=
  match qs with
  | [] => Q2Qc 0
  | q :: qs' => (q + total_of qs')%Qc
  end.


(** Numbers that float64 sums without error: whole numbers with a total
    below [2 ^ 53]. *)
Definition whole_numbers (l : list cell) : Prop :=
  (forall q, In q (numbers l) ->
             exists n : nat, q = Q2Qc (inject_Z (Z.of_nat n)))
  /\ (total_of (numbers l) < Q2Qc (inject_Z (2 ^ 53)))%Qc.

(** The numeric columns of a view, and the matrix of the heatmap. *)
Definition numeric_df (view : DataFrame) : DataFrame :=
  select_dtypes [float64; int64] view.

Definition heatmap_matrix (view : DataFrame) : Matrix :=
  corr (numeric_df view).

(** Variance of the numbers of a column (the mean of the squared distances
    to the mean). *)
Definition sum_R (l : list R) : R := fold_right Rplus 0%R l.

Definition avg (l : list R) : R := (sum_R l / INR (List.length l))%R.

Definition variance (l : list R) : R :=
  (sum_R (map (fun x => (x - avg l) * (x - avg l)) l)
   / INR (List.length l))%R.

Definition column_variance (xs : list cell) : R :=
  variance (map (fun q : Qc => Q2R q) (numbers xs)).

(** The pairs of numbers two columns hold in the same row. *)
Fixpoint jointly (xs ys : list cell) : list (Qc * Qc) :=
  match xs, ys with
  | x :: xs', y :: ys' =>
      match x, y with
      | Num p, Num q => (p, q) :: jointly xs' ys'
      | _, _ => jointly xs' ys'
      end
  | _, _ => []
  end.

Definition constant (l : list Qc) : Prop :=
  forall a b, In a l -> In b l -> a = b.

(** Too little to correlate: over the rows where both columns hold a
    number, one of them does not vary (in particular when there is at most
    one such row). *)
Definition insufficient (xs ys : list cell) : Prop :=
  constant (map fst (jointly xs ys)) \/ constant (map snd (jointly xs ys)).



(** Sum of the counts of a frequency table. *)
Definition total (t : list (cell * nat)) : nat :=
  fold_right Nat.add 0 (map snd t).

End Spec.

Unset Implicit Arguments.

(* ================================================================= *)
(** ** Cells, masks and lists *)

Section ListFacts.
Import Pandas Spec.

Lemma cell_eqb_eq (a b : cell) : cell_eqb a b = true <-> a = b.
Proof.
  destruct a as [s|p|], b as [t|q|]; simpl; split; intro H;
    try discriminate; try reflexivity.
  - apply String.eqb_eq in H. now subst.
  - injection H as ->. apply String.eqb_refl.
  - apply Qeq_bool_iff in H. f_equal. now apply Qc_is_canon.
  - injection H as ->. apply Qeq_bool_iff. reflexivity.
Qed.

Lemma cell_eqb_refl (a : cell) : cell_eqb a a = true.
Proof. now apply cell_eqb_eq. Qed.

Lemma cell_eqb_neq (a b : cell) : cell_eqb a b = false <-> a <> b.
Proof.
  split.
  - intros H E. apply cell_eqb_eq in E. congruence.
  - intro H. destruct (cell_eqb a b) eqn:E; [|reflexivity].
    apply cell_eqb_eq in E. contradiction.
Qed.

Lemma member_In (c : cell) (sel : list cell) : member c sel = true <-> In c sel.
Proof.
  unfold member. rewrite existsb_exists. split.
  - intros [x [Hx E]]. apply cell_eqb_eq in E. now subst.
  - intro H. exists c. split; [assumption | apply cell_eqb_refl].
Qed.

Lemma select_map (A : Type) (p : A -> bool) (l : list A) :
  select (map p l) l = filter p l.
Proof.
  induction l as [|x l IH]; simpl; [reflexivity|].
  destruct (p x); now rewrite IH.
Qed.

Lemma select_map_map (A B : Type) (f : A -> B) (p : B -> bool) (l : list A) :
  select (map p (map f l)) l = filter (fun x => p (f x)) l.
Proof. rewrite map_map. apply select_map. Qed.

Lemma filter_subsequence (A : Type) (p : A -> bool) (l : list A) :
  subsequence (filter p l) l.
Proof.
  induction l as [|x l IH]; simpl.
  - constructor.
  - destruct (p x); now constructor.
Qed.

Lemma subsequence_refl (A : Type) (l : list A) : subsequence l l.
Proof. induction l; now constructor. Qed.


Lemma In_uniq (A : Type) (eqb : A -> A -> bool) (l : list A) (x : A) :
  In x (uniq eqb l) -> In x l.
Proof.
  induction l as [|y l IH]; simpl; [tauto|].
  intros [->|H]; [now left|].
  apply filter_In in H. right. now apply IH.
Qed.

Lemma position_getitem (df : DataFrame) (name : string) (s : Series) :
  getitem df name = Ok s ->
  exists i, position name (columns df) = Some (i, sdtype s)
            /\ values s = map (cell_at i) (rows df).
Proof.
  unfold getitem. destruct (position name (columns df)) as [[i dt]|];
    [|discriminate].
  intros [= <-]. now exists i.
Qed.

Lemma copy_id (df : DataFrame) : copy df = df.
Proof. now destruct df. Qed.

End ListFacts.

(* ================================================================= *)
(** ** The filter stage *)

Section FilterStage.
Import Pandas App Spec.

Lemma mask_rows (df : DataFrame) (loc : Series) (sel : list cell) :
  getitem df "location" = Ok loc ->
  getitem_mask df (isin loc sel)
  = mkDF (columns df)
         (filter (fun r => member (location_of df r) sel) (rows df)).
Proof.
  intro Hloc. unfold location_of, field.
  apply position_getitem in Hloc as [i [Hi Hv]].
  rewrite Hi. unfold getitem_mask, isin. rewrite Hv.
  now rewrite select_map_map.
Qed.

Lemma df_filtered_rows (df : DataFrame) (loc : Series) (sel : list cell) :
  getitem df "location" = Ok loc -> sel <> [] ->
  df_filtered df sel
  = Ok (mkDF (columns df)
             (filter (fun r => member (location_of df r) sel) (rows df))).
Proof.
  intros Hloc Hsel. unfold df_filtered.
  destruct sel as [|c sel]; [contradiction|]. simpl truthy. cbv iota.
  rewrite Hloc. now rewrite (mask_rows df loc (c :: sel) Hloc).
Qed.

(** C1. With a location column and a non-empty selection, the filter stage
    returns a frame with the same columns whose rows are exactly the rows
    of the dataset whose location is in the selection (the same rows, as
    often, none else); with the empty selection it returns the dataset
    itself, which is not empty when the dataset is not. *)
Theorem filter_stage_exact (df : DataFrame) (loc : Series) (sel : list cell) :
  getitem df "location" = Ok loc ->
  (sel <> [] ->
   exists view,
     df_filtered df sel = Ok view
     /\ columns view = columns df
     /\ rows view = filter (fun r => member (location_of df r) sel) (rows df)
     /\ forall r, In r (rows view)
                  <-> In r (rows df) /\ In (location_of df r) sel)
  /\ df_filtered df [] = Ok df
  /\ (empty df = false ->
      exists view, df_filtered df [] = Ok view /\ empty view = false).
Proof.
  intro Hloc. split; [|split].
  - intro Hsel. eexists. split; [now apply df_filtered_rows with (loc := loc)|].
    simpl. split; [reflexivity|]. split; [reflexivity|].
    intro r. rewrite filter_In, member_In. tauto.
  - unfold df_filtered. simpl. now rewrite copy_id.
  - intro He. exists df. split; [|assumption].
    unfold df_filtered. simpl. now rewrite copy_id.
Qed.

(** The filter stage on the three-restaurant table, selection [A]. *)
Lemma filter_stage_exact_witness :
  getitem Sample.three "location"
  = Ok (mkSeries object [Str "A"; Str "A"; Str "B"])
  /\ ((Str "A" :: nil <> [] ->
       exists view,
         df_filtered Sample.three [Str "A"] = Ok view
         /\ columns view = columns Sample.three
         /\ rows view
            = filter (fun r => member (location_of Sample.three r) [Str "A"])
                     (rows Sample.three)
         /\ forall r, In r (rows view)
                      <-> In r (rows Sample.three)
                          /\ In (location_of Sample.three r) [Str "A"])
      /\ df_filtered Sample.three [] = Ok Sample.three
      /\ (empty Sample.three = false ->
          exists view,
            df_filtered Sample.three [] = Ok view /\ empty view = false)).
Proof.
  split; [reflexivity|].
  apply (@filter_stage_exact Sample.three
           (mkSeries object [Str "A"; Str "A"; Str "B"]) [Str "A"]).
  reflexivity.
Defined.

(** C9. The filter stage keeps the columns and returns the rows of the
    dataset in their order, each as it was; it fails only for want of a
    location column under a non-empty selection. *)
Theorem filter_stage_order (df : DataFrame) (sel : list cell) :
  match df_filtered df sel with
  | Ok view =>
      subsequence (rows view) (rows df) /\ columns view = columns df
  | Raise e =>
      e = KeyError "location" /\ sel <> []
      /\ getitem df "location" = Raise (KeyError "location")
  end.
Proof.
  unfold df_filtered. destruct sel as [|c sel]; simpl.
  - split; [apply subsequence_refl | reflexivity].
  - destruct (getitem df "location") as [loc|e] eqn:Hloc.
    + rewrite (mask_rows df loc (c :: sel) Hloc).
      split; [apply filter_subsequence | reflexivity].
    + unfold getitem in Hloc.
      destruct (position "location" (columns df)) as [[i dt]|];
        [discriminate|].
      injection Hloc as <-. repeat split. discriminate.
Qed.

(** The order of the three-restaurant table under the selection [B, A]:
    the rows of A still come before the row of B. *)
Lemma filter_stage_order_example :
  exists view,
    df_filtered Sample.three [Str "B"; Str "A"] = Ok view
    /\ map label (rows view) = [0; 1; 2]
    /\ subsequence (rows view) (rows Sample.three).
Proof.
  pose proof (filter_stage_order Sample.three [Str "B"; Str "A"]) as H.
  destruct (df_filtered Sample.three [Str "B"; Str "A"]) as [view|e] eqn:E.
  - exists view. split; [reflexivity|]. split; [|exact (proj1 H)].
    vm_compute in E. injection E as <-. reflexivity.
  - vm_compute in E. discriminate.
Defined.

End FilterStage.

(* ================================================================= *)
(** ** Output of a pass *)

Section Passes.
Import Pandas App Spec.

Lemma output_bind (A B : Type) (m : M A) (k : A -> M B) :
  output (bind m k)
  = output m ++ match outcome m with
                | Ok a => output (k a)
                | Raise _ => []
                end.
Proof.
  destruct m as [out [a|e]]; simpl.
  - now destruct (k a).
  - now rewrite app_nil_r.
Qed.

Lemma outcome_bind (A B : Type) (m : M A) (k : A -> M B) :
  outcome (bind m k)
  = match outcome m with
    | Ok a => outcome (k a)
    | Raise e => Raise e
    end.
Proof.
  destruct m as [out [a|e]]; simpl; [|reflexivity].
  now destruct (k a).
Qed.

Lemma no_warning_bind (A B : Type) (m : M A) (k : A -> M B) :
  no_warning m ->
  (forall a, outcome m = Ok a -> no_warning (k a)) ->
  no_warning (bind m k).
Proof.
  intros Hm Hk msg. rewrite output_bind, in_app_iff. intros [H|H].
  - exact (Hm msg H).
  - destruct (outcome m) as [a|e] eqn:E; [|contradiction].
    exact (Hk a eq_refl msg H).
Qed.

Lemma no_warning_emit (e : event) :
  (forall msg, e <> WarningBox msg) -> no_warning (emit e).
Proof.
  intros He msg [H|[]]. exact (He msg H).
Qed.

Lemma no_warning_lift (A : Type) (r : result A) : no_warning (lift r).
Proof. intros msg []. Qed.

Lemma no_warning_ret (A : Type) (a : A) : no_warning (ret a).
Proof. intros msg []. Qed.

Lemma no_warning_raise (A : Type) (e : exn) : no_warning (raise A e).
Proof. intros msg []. Qed.

Lemma no_warning_px_columns (df : DataFrame) (names : list string) :
  no_warning (px_columns df names).
Proof.
  induction names as [|n names IH]; cbn [px_columns].
  - apply no_warning_ret.
  - destruct (has_column df n); [exact IH | apply no_warning_raise].
Qed.

End Passes.

(** Walks through a page, one call at a time. *)
Ltac quiet :=
  repeat first
    [ apply no_warning_px_columns
    | apply no_warning_lift
    | apply no_warning_ret
    | apply no_warning_raise
    | apply no_warning_emit; intro; discriminate
    | apply no_warning_bind; [|intros ? _]
    | match goal with
      | |- Spec.no_warning (if ?c then _ else _) => destruct c
      end ].

Ltac peel := apply no_warning_bind; [quiet | intros _ _].

Section Pages.
Import Pandas App Spec.

Lemma no_warning_home (view : DataFrame) : no_warning (home view).
Proof. unfold home. quiet. Qed.

Lemma no_warning_univariate (view : DataFrame) (c : Choice) :
  no_warning (univariate view c).
Proof. unfold univariate. quiet. Qed.

Lemma no_warning_bivariate (view : DataFrame) : no_warning (bivariate view).
Proof. unfold bivariate. quiet. Qed.

Lemma no_warning_multivariate (view : DataFrame) :
  empty view = false -> no_warning (multivariate view).
Proof. intro He. unfold multivariate. rewrite He. simpl negb. quiet. Qed.

End Pages.

(* ================================================================= *)
(** ** Loading, and the guard on an empty dataset *)

Section Loading.
Import Pandas App Spec.

Lemma select_nil (A : Type) (mask : list bool) : select mask (@nil A) = [].
Proof. now destruct mask. Qed.

Lemma select_columns (cols : list (string * dtype)) :
  select (map kept cols) cols = filter kept cols.
Proof. apply select_map. Qed.

Lemma has_column_drop (df : DataFrame) :
  has_column (drop df index_column) index_column = false.
Proof.
  unfold has_column, drop, keep_columns. simpl.
  fold kept. rewrite select_columns.
  induction (columns df) as [|[n dt] cols IH]; simpl; [reflexivity|].
  unfold kept at 1. simpl.
  destruct (String.eqb n index_column) eqn:E; simpl; [exact IH|].
  now rewrite E.
Qed.

(** A column that stays is found again, with the cells it had. *)
Lemma position_kept (name : string) (cols : list (string * dtype)) :
  name <> index_column ->
  match position name cols with
  | None => position name (select (map kept cols) cols) = None
  | Some (i, dt) =>
      exists i', position name (select (map kept cols) cols) = Some (i', dt)
                 /\ forall cs, nth i' (select (map kept cols) cs) NaN
                               = nth i cs NaN
  end.
Proof.
  intro Hname. induction cols as [|[n dt] cols IH]; [reflexivity|].
  cbn [position map select].
  assert (Hk : kept (n, dt) = negb (String.eqb n index_column))
    by reflexivity.
  rewrite Hk. clear Hk.
  destruct (String.eqb n name) eqn:En.
  - apply String.eqb_eq in En. subst n.
    destruct (String.eqb name index_column) eqn:Ed;
      [apply String.eqb_eq in Ed; contradiction|].
    cbn [negb position]. rewrite String.eqb_refl.
    exists 0. split; [reflexivity|].
    intros [|c cs]; reflexivity.
  - destruct (String.eqb n index_column) eqn:Ed; cbn [negb position].
    + destruct (position name cols) as [[i dt']|]; [|exact IH].
      destruct IH as [i' [Hp Hn]]. exists i'. split; [exact Hp|].
      intros [|c cs]; cbn [select nth]; [now destruct i' | apply Hn].
    + rewrite En. destruct (position name cols) as [[i dt']|].
      * destruct IH as [i' [Hp Hn]]. exists (S i'). rewrite Hp.
        split; [reflexivity|].
        intros [|c cs]; cbn [select nth]; [reflexivity | apply Hn].
      * now rewrite IH.
Qed.

Lemma getitem_drop (df : DataFrame) (name : string) :
  name <> index_column ->
  getitem (drop df index_column) name = getitem df name.
Proof.
  intro Hname. unfold getitem, drop, keep_columns. simpl. fold kept.
  pose proof (position_kept name (columns df) Hname) as H.
  destruct (position name (columns df)) as [[i dt]|].
  - destruct H as [i' [-> Hn]]. f_equal. f_equal.
    rewrite map_map. apply map_ext. intro r. unfold cell_at. simpl. apply Hn.
  - now rewrite H.
Qed.

Lemma has_column_false_filter (cols : list (string * dtype)) :
  existsb (fun c => String.eqb (fst c) index_column) cols = false ->
  filter kept cols = cols.
Proof.
  induction cols as [|c cols IH]; simpl; [reflexivity|].
  intro H. apply orb_false_iff in H as [H1 H2].
  unfold kept at 1. rewrite H1. simpl. now rewrite IH.
Qed.

(** What [load_data] does to the frame it has read. *)
Lemma load_data_strips (env : Env) (df : DataFrame) :
  (read_parquet env = Ok df
   \/ (exists e, read_parquet env = Raise e) /\ read_csv env = Ok df) ->
  exists out,
    load_data env = Ok out
    /\ has_column out index_column = false
    /\ columns out = filter kept (columns df)
    /\ map label (rows out) = map label (rows df)
    /\ (forall name, name <> index_column -> getitem out name = getitem df name)
    /\ (has_column df index_column = false -> out = df).
Proof.
  intro H.
  assert (Hl : load_data env
               = if has_column df "Unnamed: 0" then Ok (drop df "Unnamed: 0")
                 else Ok df).
  { unfold load_data. destruct H as [-> | [[e ->] ->]]; reflexivity. }
  rewrite Hl. fold index_column.
  destruct (has_column df index_column) eqn:Hc.
  - exists (drop df index_column). split; [reflexivity|].
    split; [apply has_column_drop|].
    split; [unfold drop, keep_columns; simpl; fold kept; apply select_columns|].
    split; [unfold drop, keep_columns; simpl; now rewrite map_map|].
    split; [intros; now apply getitem_drop | discriminate].
  - exists df. split; [reflexivity|]. split; [exact Hc|].
    split; [symmetry; now apply has_column_false_filter|].
    split; [reflexivity|]. split; reflexivity.
Qed.

(** C8. When the columnar file is read, its frame is the one loaded; when
    reading it fails, whatever the failure, the text file is read instead
    and nothing is written to the page about it; when that fails too, its
    exception is the result of [load_data] and ends the pass, uncaught.
    The frame loaded has no index column left, keeps every other column
    with its cells, keeps the rows, and is the frame read when that had no
    index column. *)
Theorem load_data_fallback (env : Env) :
  let loaded_from (df : DataFrame) :=
    exists out,
      load_data env = Ok out
      /\ has_column out index_column = false
      /\ columns out = filter kept (columns df)
      /\ map label (rows out) = map label (rows df)
      /\ (forall name, name <> index_column ->
                       getitem out name = getitem df name)
      /\ (has_column df index_column = false -> out = df) in
  output (lift (load_data env)) = []
  /\ match read_parquet env with
     | Ok df => loaded_from df
     | Raise _ =>
         match read_csv env with
         | Ok df => loaded_from df
         | Raise e =>
             load_data env = Raise e
             /\ run env
                = ([Decor "page config"; Decor "style sheet"], Raise e)
         end
     end.
Proof.
  intro loaded_from. split; [reflexivity|].
  destruct (read_parquet env) as [df|e1] eqn:Hp.
  - apply load_data_strips. now left.
  - destruct (read_csv env) as [df|e2] eqn:Hc.
    + apply load_data_strips. right. split; [now exists e1 | assumption].
    + assert (Hl : load_data env = Raise e2).
      { unfold load_data. now rewrite Hp, Hc. }
      split; [exact Hl|]. unfold run, lift. rewrite Hl. reflexivity.
Qed.

(** The columnar file is missing and the text file holds the
    three-restaurant table with its index column. *)
Lemma load_data_fallback_witness :
  let env := mkEnv (Raise (FileError "cleaned_df.parquet"))
                   (Ok Sample.three_csv) Home [] rate in
  exists out,
    load_data env = Ok out
    /\ has_column out index_column = false
    /\ getitem out "location" = getitem Sample.three_csv "location".
Proof.
  intro env. destruct (load_data_fallback env) as [_ H].
  cbn [env read_parquet read_csv] in H.
  destruct H as [out [H1 [H2 [_ [_ [H5 _]]]]]].
  exists out. split; [exact H1|]. split; [exact H2|].
  apply H5. discriminate.
Defined.

(** C7. When the dataset loaded is empty, the pass writes the page
    furniture and the error box, then stops: its outcome is the stop
    exception and nothing it wrote comes from a filtered view, whatever
    the widgets hold. *)
Theorem empty_dataset_halts (env : Env) (df : DataFrame) :
  load_data env = Ok df ->
  empty df = true ->
  run env
  = ([Decor "page config"; Decor "style sheet"; Decor "logo"; Decor "rule";
      Radio; Decor "rule"; Decor "filter heading"; ErrorBox load_error],
     Raise StopException)
  /\ In (ErrorBox load_error) (output (run env))
  /\ outcome (run env) = Raise StopException
  /\ forall e, In e (output (run env)) -> from_view e = false.
Proof.
  intros Hl He.
  assert (Hr : run env
               = ([Decor "page config"; Decor "style sheet"; Decor "logo";
                   Decor "rule"; Radio; Decor "rule"; Decor "filter heading";
                   ErrorBox load_error],
                  Raise StopException)).
  { unfold run, lift. rewrite Hl. cbn. rewrite He. reflexivity. }
  split; [exact Hr|]. rewrite Hr. simpl.
  split; [tauto|]. split; [reflexivity|].
  intros e H. repeat (destruct H as [<-|H]; [reflexivity|]). contradiction.
Qed.

(** A pass over a table with the right columns and no row. *)
Lemma empty_dataset_halts_witness :
  let env := Sample.env_of (mkDF Sample.schema []) Multivariate [Str "A"] cost in
  load_data env = Ok (mkDF Sample.schema [])
  /\ empty (mkDF Sample.schema []) = true
  /\ run env
     = ([Decor "page config"; Decor "style sheet"; Decor "logo"; Decor "rule";
         Radio; Decor "rule"; Decor "filter heading"; ErrorBox load_error],
        Raise StopException)
  /\ In (ErrorBox load_error) (output (run env))
  /\ outcome (run env) = Raise StopException
  /\ forall e, In e (output (run env)) -> from_view e = false.
Proof.
  intro env. split; [reflexivity|]. split; [reflexivity|].
  apply (empty_dataset_halts env (mkDF Sample.schema [])); reflexivity.
Defined.

End Loading.

(* ================================================================= *)
(** ** A selection taken from the options *)

Section Selection.
Import Pandas App Spec.

Lemma bind_lift_ok (A B : Type) (a : A) (k : A -> M B) :
  bind (lift (Ok a)) k = k a.
Proof. unfold bind, lift. now destruct (k a). Qed.

Lemma no_warning_run (env : Env) (df view : DataFrame) (loc : Series) :
  load_data env = Ok df ->
  empty df = false ->
  getitem df "location" = Ok loc ->
  df_filtered df (selected_location env) = Ok view ->
  empty view = false ->
  no_warning (run env).
Proof.
  intros Hl He Hloc Hv Hne. unfold run.
  peel. peel. rewrite Hl, bind_lift_ok.
  peel. peel. peel. peel. peel.
  rewrite He. cbn [negb]. rewrite Hloc, bind_lift_ok.
  peel. rewrite Hv, bind_lift_ok.
  destruct (page env).
  - apply no_warning_home.
  - apply no_warning_univariate.
  - apply no_warning_bivariate.
  - now apply no_warning_multivariate.
Qed.

(** C10. When the dataset loaded is not empty and the selection is not
    empty and made of values of the dataset's own location column, the
    filter stage returns a view that is not empty, and the pass shows no
    warning, on any page. *)
Theorem selection_from_options (env : Env) (df : DataFrame) (loc : Series) :
  load_data env = Ok df ->
  empty df = false ->
  getitem df "location" = Ok loc ->
  selected_location env <> [] ->
  incl (selected_location env) (unique (values loc)) ->
  exists view,
    df_filtered df (selected_location env) = Ok view
    /\ empty view = false
    /\ 0 < nrows view
    /\ no_warning (run env).
Proof.
  intros Hl He Hloc Hsel Hincl.
  pose proof (df_filtered_rows df loc (selected_location env) Hloc Hsel) as Hv.
  set (view := mkDF (columns df)
                 (filter (fun r => member (location_of df r)
                                     (selected_location env)) (rows df))) in *.
  assert (Hr : exists r, In r (rows view)).
  { destruct (selected_location env) as [|c sel] eqn:Es; [contradiction|].
    assert (Hc : In c (values loc)).
    { apply In_uniq with (eqb := cell_eqb). apply Hincl. now left. }
    destruct (position_getitem df "location" loc Hloc) as [i [Hi Hval]].
    rewrite Hval in Hc. apply in_map_iff in Hc as [r [Hr Hin]].
    exists r. unfold view. cbn [rows]. apply filter_In. split; [assumption|].
    apply (proj2 (member_In (location_of df r) (c :: sel))).
    unfold location_of, field. rewrite Hi, Hr. now left. }
  destruct Hr as [r Hr].
  assert (Hne : empty view = false).
  { unfold empty. destruct (rows view) as [|r0 rs]; [contradiction|].
    unfold view. simpl. unfold empty in He.
    destruct (rows df); [discriminate|].
    now destruct (columns df). }
  exists view. split; [exact Hv|]. split; [exact Hne|]. split.
  - unfold nrows. destruct (rows view); [contradiction | simpl; lia].
  - now apply no_warning_run with (df := df) (view := view) (loc := loc).
Qed.

(** The multivariate page over the three-restaurant table, selection [A]. *)
Lemma selection_from_options_witness :
  let env := Sample.env_of Sample.three Multivariate [Str "A"] cost in
  let loc := mkSeries object [Str "A"; Str "A"; Str "B"] in
  load_data env = Ok Sample.three
  /\ empty Sample.three = false
  /\ getitem Sample.three "location" = Ok loc
  /\ selected_location env <> []
  /\ incl (selected_location env) (unique (values loc))
  /\ exists view,
       df_filtered Sample.three (selected_location env) = Ok view
       /\ empty view = false
       /\ 0 < nrows view
       /\ no_warning (run env).
Proof.
  intros env loc.
  assert (H1 : load_data env = Ok Sample.three) by reflexivity.
  assert (H2 : empty Sample.three = false) by reflexivity.
  assert (H3 : getitem Sample.three "location" = Ok loc) by reflexivity.
  assert (H4 : selected_location env <> []) by discriminate.
  assert (H5 : incl (selected_location env) (unique (values loc))).
  { intros c [<-|[]]. left. reflexivity. }
  repeat (split; [assumption|]).
  exact (selection_from_options env Sample.three loc H1 H2 H3 H4 H5).
Defined.

End Selection.

(* ================================================================= *)
(** ** The two tests of the univariate page *)

Section Classification.
Import Pandas App Spec.

Lemma dtype_eqb_eq (a b : dtype) : dtype_eqb a b = true <-> a = b.
Proof. destruct a, b; simpl; split; intro H; congruence. Qed.

(** C2, as stated, fails: the cost column of the three-restaurant table is
    stored as integers and has three distinct values, so the chart test
    calls it categorical (pie) while the statistics test calls it numeric
    (summary statistics); the pass shows both. *)
Lemma classification_disagrees :
  let s := mkSeries int64 [Sample.num 300; Sample.num 500; Sample.num 700] in
  let env := Sample.env_of Sample.three Univariate [] cost in
  getitem Sample.three "cost" = Ok s
  /\ chart_is_pie s = true
  /\ stats_is_describe s = true
  /\ chart_is_pie s <> negb (stats_is_describe s)
  /\ In (Pie "cost" Sample.three) (output (run env))
  /\ In (Describe s) (output (run env)).
Proof.
  intros s env.
  split; [reflexivity|]. split; [reflexivity|]. split; [reflexivity|].
  split; [discriminate|]. split.
  - vm_compute. do 10 right. left. reflexivity.
  - vm_compute. do 12 right. left. reflexivity.
Qed.

(** C2, amended. The chart test is "stored as object, or fewer than 20
    distinct values"; the statistics test looks at the storage type alone.
    The page shows the chart and the statistics these tests pick, and the
    two agree exactly on the columns stored as object or with at least 20
    distinct values. *)
Theorem classification_tests (view : DataFrame) (c : Choice) (s : Series) :
  getitem view (choice_name c) = Ok s ->
  (chart_is_pie s = true
   <-> sdtype s = object \/ List.length (unique (values s)) < 20)
  /\ (stats_is_describe s = false <-> sdtype s = object)
  /\ (chart_is_pie s = negb (stats_is_describe s)
      <-> sdtype s = object \/ 20 <= List.length (unique (values s)))
  /\ univariate view c
     = ([Decor "header"; SelectBox;
         (if chart_is_pie s then Pie (choice_name c) view
          else Histogram (choice_name c) view);
         Decor "stats heading";
         (if stats_is_describe s then Describe s
          else ValueCounts (value_counts (values s)))],
        Ok tt).
Proof.
  intro Hs.
  assert (Hpie : chart_is_pie s = true
                 <-> sdtype s = object \/ List.length (unique (values s)) < 20).
  { unfold chart_is_pie. rewrite orb_true_iff, dtype_eqb_eq, Nat.ltb_lt.
    tauto. }
  assert (Hst : stats_is_describe s = false <-> sdtype s = object).
  { unfold stats_is_describe. rewrite negb_false_iff. apply dtype_eqb_eq. }
  split; [exact Hpie|]. split; [exact Hst|]. split.
  - destruct (chart_is_pie s) eqn:E1; destruct (stats_is_describe s) eqn:E2;
      simpl; split; try discriminate; try reflexivity.
    + intros [H|H]; [apply Hst in H; discriminate|].
      destruct (proj1 Hpie eq_refl) as [H'|H']; [|lia].
      apply Hst in H'. discriminate.
    + intros _. left. now apply Hst.
    + intros _. right.
      destruct (Nat.lt_ge_cases (List.length (unique (values s))) 20) as [H|H];
        [|exact H].
      assert (Hc : false = true) by (apply Hpie; now right). discriminate.
    + intros _. apply Hpie. left. now apply Hst.
  - unfold univariate, lift. rewrite Hs.
    cbn -[chart_is_pie stats_is_describe value_counts choice_name].
    destruct (chart_is_pie s), (stats_is_describe s); reflexivity.
Qed.

(** The rating column of the three-restaurant table. *)
Lemma classification_tests_witness :
  let s := mkSeries float64 [Sample.num 4; Sample.num 3; Sample.num 5] in
  getitem Sample.three (choice_name rate) = Ok s
  /\ (chart_is_pie s = true
      <-> sdtype s = object \/ List.length (unique (values s)) < 20)
  /\ (stats_is_describe s = false <-> sdtype s = object)
  /\ (chart_is_pie s = negb (stats_is_describe s)
      <-> sdtype s = object \/ 20 <= List.length (unique (values s)))
  /\ univariate Sample.three rate
     = ([Decor "header"; SelectBox;
         (if chart_is_pie s then Pie (choice_name rate) Sample.three
          else Histogram (choice_name rate) Sample.three);
         Decor "stats heading";
         (if stats_is_describe s then Describe s
          else ValueCounts (value_counts (values s)))],
        Ok tt).
Proof.
  intro s. split; [reflexivity|].
  apply (classification_tests Sample.three rate s). reflexivity.
Defined.

End Classification.

(* ================================================================= *)
(** ** The stable sort *)

Section StableSort.
Import Pandas Spec.

Variable A : Type.
Variable le : A -> A -> bool.

Lemma insert_In (x y : A) (l : list A) :
  In y (insert le x l) <-> y = x \/ In y l.
Proof.
  induction l as [|z l IH]; simpl; [intuition|].
  destruct (le x z); simpl; [intuition|].
  rewrite IH. intuition.
Qed.

Lemma sort_In (y : A) (l : list A) : In y (sort le l) <-> In y l.
Proof.
  induction l as [|x l IH]; simpl; [tauto|].
  rewrite insert_In, IH. intuition.
Qed.

Lemma insert_length (x : A) (l : list A) :
  List.length (insert le x l) = S (List.length l).
Proof.
  induction l as [|z l IH]; simpl; [reflexivity|].
  destruct (le x z); simpl; [reflexivity | now rewrite IH].
Qed.

(** Elements picked by [p] keep their order when any two of them are in
    order both ways. *)
Lemma insert_filter (p : A -> bool) (x : A) (l : list A) :
  (forall y, In y l -> p x = true -> p y = true -> le x y = true) ->
  filter p (insert le x l) = filter p (x :: l).
Proof.
  induction l as [|z l IH]; intro Htie; [reflexivity|].
  cbn [insert]. destruct (le x z) eqn:E; [reflexivity|].
  cbn [filter] in *. rewrite IH by (intros; apply Htie; simpl; auto).
  destruct (p x) eqn:Px, (p z) eqn:Pz; try reflexivity.
  rewrite Htie in E by (simpl; auto). discriminate.
Qed.

Lemma sort_filter (p : A -> bool) (l : list A) :
  (forall x y, p x = true -> p y = true -> le x y = true) ->
  filter p (sort le l) = filter p l.
Proof.
  intro Htie. induction l as [|x l IH]; [reflexivity|].
  cbn [sort]. rewrite insert_filter by (intros; now apply Htie).
  cbn [filter]. now rewrite IH.
Qed.

Hypothesis le_total : forall x y, le x y = false -> le y x = true.
Hypothesis le_trans :
  forall x y z, le x y = true -> le y z = true -> le x z = true.

Lemma insert_sorted (x : A) (l : list A) :
  StronglySorted (fun a b => le a b = true) l ->
  StronglySorted (fun a b => le a b = true) (insert le x l).
Proof.
  induction 1 as [|z l Hs IH Hz]; simpl.
  - constructor; constructor.
  - destruct (le x z) eqn:E.
    + constructor; [now constructor|].
      constructor; [exact E|].
      rewrite Forall_forall in *. intros y Hy. eauto.
    + constructor; [exact IH|].
      rewrite Forall_forall in *. intros y Hy.
      apply insert_In in Hy as [->|Hy]; auto.
Qed.

Lemma sort_sorted (l : list A) :
  StronglySorted (fun a b => le a b = true) (sort le l).
Proof.
  induction l as [|x l IH]; simpl; [constructor | now apply insert_sorted].
Qed.

End StableSort.

Section Order.
Import Pandas Spec.

Variable A : Type.

Lemma precedes_In (a b : A) (l : list A) : precedes a b l -> In a l /\ In b l.
Proof.
  induction 1 as [l H|x l _ [IH1 IH2]]; simpl; auto.
Qed.

Lemma precedes_cons (a b x : A) (l : list A) :
  precedes a b (x :: l) <-> (a = x /\ In b l) \/ precedes a b l.
Proof.
  split.
  - intro H. inversion H; subst; auto.
  - intros [[-> H]|H]; now constructor.
Qed.

Lemma precedes_firstn (a b : A) (n : nat) (l : list A) :
  precedes a b (firstn n l) -> precedes a b l.
Proof.
  revert l. induction n as [|n IH]; intros [|x l] H; simpl in H;
    try (inversion H; fail).
  inversion H as [l' Hin|x' l' Hp]; subst.
  - constructor. revert Hin. clear. revert l.
    induction n as [|n IH]; intros [|y l]; simpl; try tauto.
    intros [->|H]; auto.
  - apply prec_later. now apply IH.
Qed.

Lemma precedes_filter (p : A -> bool) (a b : A) (l : list A) :
  p a = true -> p b = true -> precedes a b l -> precedes a b (filter p l).
Proof.
  intros Ha Hb. induction 1 as [l H|x l _ IH]; simpl.
  - rewrite Ha. constructor. apply filter_In. auto.
  - destruct (p x); [now apply prec_later | exact IH].
Qed.

Lemma precedes_filter_inv (p : A -> bool) (a b : A) (l : list A) :
  precedes a b (filter p l) -> precedes a b l.
Proof.
  induction l as [|x l IH]; simpl; [inversion 1|].
  destruct (p x).
  - intro H. inversion H as [l' Hin|x' l' Hp]; subst.
    + constructor. now apply filter_In in Hin.
    + apply prec_later. now apply IH.
  - intro H. apply prec_later. now apply IH.
Qed.

Lemma precedes_map (B : Type) (g : A -> B) (a b : A) (l : list A) :
  precedes a b l -> precedes (g a) (g b) (map g l).
Proof.
  induction 1 as [l H|x l _ IH]; simpl.
  - constructor. now apply in_map.
  - now apply prec_later.
Qed.

Lemma In_firstn (x : A) (n : nat) (l : list A) :
  In x (firstn n l) -> In x l.
Proof.
  revert l. induction n as [|n IH]; intros [|y l]; simpl; try tauto.
  intros [->|H]; auto.
Qed.

Lemma sorted_weaken (R R' : A -> A -> Prop) (l : list A) :
  (forall a b, R a b -> R' a b) -> StronglySorted R l -> StronglySorted R' l.
Proof.
  intro H. induction 1 as [|x l Hs IH Hx]; constructor; [exact IH|].
  rewrite Forall_forall in *. auto.
Qed.

Lemma firstn_sorted (R : A -> A -> Prop) (n : nat) (l : list A) :
  StronglySorted R l -> StronglySorted R (firstn n l).
Proof.
  intro H. revert n. induction H as [|x l Hs IH Hx]; intros [|n]; simpl;
    try constructor.
  - apply IH.
  - rewrite Forall_forall in *. intros y Hy. apply Hx.
    revert Hy. clear. revert l.
    induction n as [|n IH]; intros [|z l]; simpl; try tauto.
    intros [->|H]; auto.
Qed.

End Order.

(* ================================================================= *)
(** ** Value counts and the top ten *)

Section TopTen.
Import Pandas App Spec.

Lemma filter_filter_weaker (A : Type) (p q : A -> bool) (l : list A) :
  (forall x, In x l -> p x = true -> q x = true) ->
  filter p (filter q l) = filter p l.
Proof.
  induction l as [|x l IH]; intro H; simpl; [reflexivity|].
  destruct (q x) eqn:Q; simpl.
  - destruct (p x); rewrite IH by (intros; apply H; simpl; auto); reflexivity.
  - destruct (p x) eqn:P.
    + rewrite H in Q by (simpl; auto). discriminate.
    + apply IH. intros; apply H; simpl; auto.
Qed.

Lemma filter_comm (A : Type) (p q : A -> bool) (l : list A) :
  filter p (filter q l) = filter q (filter p l).
Proof.
  induction l as [|x l IH]; simpl; [reflexivity|].
  destruct (p x) eqn:P, (q x) eqn:Q; simpl; rewrite ?P, ?Q, IH; reflexivity.
Qed.

Lemma filter_split_length (A : Type) (p : A -> bool) (l : list A) :
  List.length (filter p l) + List.length (filter (fun x => negb (p x)) l)
  = List.length l.
Proof.
  induction l as [|x l IH]; simpl; [reflexivity|].
  destruct (p x); simpl; lia.
Qed.

Lemma unique_NoDup (l : list cell) : NoDup (unique l).
Proof.
  unfold unique. induction l as [|x l IH]; simpl; constructor.
  - intro H. apply filter_In in H as [_ H].
    now rewrite cell_eqb_refl in H.
  - now apply NoDup_filter.
Qed.

Lemma unique_In (l : list cell) (c : cell) : In c (unique l) <-> In c l.
Proof.
  split; [apply In_uniq|]. unfold unique.
  induction l as [|x l IH]; simpl; [tauto|].
  intros [->|H]; [now left|].
  destruct (cell_eqb c x) eqn:E.
  - left. symmetry. now apply cell_eqb_eq.
  - right. apply filter_In. split; [now apply IH | now rewrite E].
Qed.

Lemma unique_filter (p : cell -> bool) (l : list cell) :
  unique (filter p l) = filter p (unique l).
Proof.
  unfold unique. induction l as [|x l IH]; simpl; [reflexivity|].
  destruct (p x) eqn:P; simpl.
  - rewrite IH. f_equal. apply filter_comm.
  - rewrite IH. symmetry. apply filter_filter_weaker.
    intros y _ Py. destruct (cell_eqb y x) eqn:E; [|reflexivity].
    apply cell_eqb_eq in E. congruence.
Qed.

(** A value that comes before another in [unique l] has an occurrence in
    [l] before the first occurrence of the other. *)
Lemma unique_first_seen (v w : cell) (l : list cell) :
  precedes v w (unique l) ->
  exists l1 l2, l = l1 ++ w :: l2 /\ ~ In w l1 /\ In v l1.
Proof.
  unfold unique. induction l as [|x l IH]; simpl; [inversion 1|].
  intro H. apply precedes_cons in H as [[-> Hin]|Hp].
  - apply filter_In in Hin as [Hin Hne].
    apply negb_true_iff, cell_eqb_neq in Hne.
    apply In_uniq in Hin.
    assert (Hs : exists a b, l = a ++ w :: b /\ ~ In w a).
    { clear -Hin. induction l as [|y l IH]; [contradiction|].
      destruct (cell_eqb y w) eqn:E.
      - apply cell_eqb_eq in E. subst. exists [], l. auto.
      - apply cell_eqb_neq in E. destruct Hin as [->|Hin]; [congruence|].
        destruct (IH Hin) as [a [b [-> Hn]]].
        exists (y :: a), b. split; [reflexivity|].
        simpl. tauto. }
    destruct Hs as [a [b [-> Hn]]].
    exists (x :: a), b. split; [reflexivity|]. simpl. split; [|now left].
    intros [E|E]; [congruence | contradiction].
  - pose proof (precedes_In _ _ _ _ Hp) as [_ Hw].
    apply filter_In in Hw as [_ Hne].
    apply negb_true_iff, cell_eqb_neq in Hne.
    apply precedes_filter_inv in Hp.
    destruct (IH Hp) as [l1 [l2 [-> [Hn Hv]]]].
    exists (x :: l1), l2. split; [reflexivity|]. simpl. split; [|now right].
    intros [E|E]; [congruence | contradiction].
Qed.

Lemma count_filter_other (c x : cell) (l : list cell) :
  c <> x ->
  count c (filter (fun d => negb (cell_eqb x d)) l) = count c l.
Proof.
  intro Hne. unfold count. f_equal. apply filter_filter_weaker.
  intros d _ Hd. apply cell_eqb_eq in Hd. subst d.
  apply negb_true_iff, cell_eqb_neq. congruence.
Qed.

Lemma counts_le_length (u l : list cell) :
  NoDup u ->
  fold_right Nat.add 0 (map (fun c => count c l) u) <= List.length l.
Proof.
  intro Hu. revert l. induction Hu as [|x u Hx Hu IH]; intro l; simpl; [lia|].
  pose proof (filter_split_length _ (cell_eqb x) l) as Hs.
  specialize (IH (filter (fun d => negb (cell_eqb x d)) l)).
  rewrite (map_ext_in _ (fun c => count c l)) in IH.
  - unfold count at 1. lia.
  - intros c Hc. apply count_filter_other. congruence.
Qed.

Lemma total_insert (le : cell * nat -> cell * nat -> bool)
      (x : cell * nat) (t : list (cell * nat)) :
  total (insert le x t) = snd x + total t.
Proof.
  unfold total. induction t as [|y t IH]; simpl; [reflexivity|].
  destruct (le x y); simpl; [reflexivity | rewrite IH; lia].
Qed.

Lemma total_sort (le : cell * nat -> cell * nat -> bool)
      (t : list (cell * nat)) :
  total (sort le t) = total t.
Proof.
  induction t as [|x t IH]; simpl; [reflexivity|].
  rewrite total_insert, IH. reflexivity.
Qed.

Lemma total_firstn (n : nat) (t : list (cell * nat)) :
  total (firstn n t) <= total t.
Proof.
  unfold total. revert t. induction n as [|n IH]; intros [|x t]; simpl;
    try lia.
  specialize (IH t). lia.
Qed.

Lemma total_frequencies (l : list cell) :
  total (frequencies l) <= List.length l.
Proof.
  unfold total, frequencies. rewrite map_map. simpl.
  apply counts_le_length, unique_NoDup.
Qed.

Lemma frequencies_In (l : list cell) (v : cell) (n : nat) :
  In (v, n) (frequencies l) <-> v <> NaN /\ In v l /\ n = count v l.
Proof.
  unfold frequencies, dropna. rewrite in_map_iff. split.
  - intros [c [[= -> <-] Hc]]. apply unique_In, filter_In in Hc as [Hc Hn].
    repeat split; [|assumption]. intros ->. discriminate.
  - intros [Hn [Hv ->]]. exists v. split; [reflexivity|].
    apply unique_In, filter_In. split; [assumption|]. now destruct v.
Qed.

Lemma count_pos (v : cell) (l : list cell) : In v l -> 0 < count v l.
Proof.
  intro H. unfold count.
  assert (Hin : In v (filter (cell_eqb v) l)).
  { apply filter_In. split; [assumption | apply cell_eqb_refl]. }
  destruct (filter (cell_eqb v) l); [contradiction | simpl; lia].
Qed.

Lemma count_ge_total (x y : cell * nat) :
  count_ge x y = false -> count_ge y x = true.
Proof. unfold count_ge. rewrite Nat.leb_gt, Nat.leb_le. lia. Qed.

Lemma count_ge_trans (x y z : cell * nat) :
  count_ge x y = true -> count_ge y z = true -> count_ge x z = true.
Proof. unfold count_ge. rewrite !Nat.leb_le. lia. Qed.

(** C3. The top ten of the location column of a view: at most ten
    entries; each a value of the column, not missing, with the number of
    its occurrences; larger counts first; of two entries with the same
    count, the first is met in the column before the other is; and the
    counts add up to at most the number of rows of the view. *)
Theorem top10_location (view : DataFrame) (loc : Series) :
  getitem view "location" = Ok loc ->
  List.length (top10 loc) <= 10
  /\ (forall v n, In (v, n) (top10 loc) ->
                  v <> NaN /\ In v (values loc) /\ n = count v (values loc)
                  /\ 0 < n)
  /\ StronglySorted (fun a b => snd b <= snd a) (top10 loc)
  /\ (forall v w n,
        precedes (v, n) (w, n) (top10 loc) ->
        exists l1 l2,
          values loc = l1 ++ w :: l2 /\ ~ In w l1 /\ In v l1)
  /\ total (top10 loc) <= nrows view.
Proof.
  intro Hloc. unfold top10, value_counts.
  split; [apply firstn_le_length|]. split; [|split; [|split]].
  - intros v n H. apply In_firstn, sort_In, frequencies_In in H.
    destruct H as [Hn [Hv ->]]. repeat split; try assumption.
    now apply count_pos.
  - apply firstn_sorted.
    apply sorted_weaken with (R := fun a b => count_ge a b = true).
    + intros a b H. now apply Nat.leb_le.
    + apply sort_sorted; [apply count_ge_total | apply count_ge_trans].
  - intros v w n H. apply precedes_firstn in H.
    set (p := fun e : cell * nat => snd e =? n).
    apply precedes_filter with (p := p) in H;
      [|apply Nat.eqb_refl|apply Nat.eqb_refl].
    rewrite sort_filter in H.
    + apply precedes_filter_inv in H.
      apply precedes_map with (g := fst) in H. unfold frequencies in H.
      rewrite map_map in H. simpl in H. rewrite map_id in H.
      unfold dropna in H. rewrite unique_filter in H.
      apply precedes_filter_inv in H. now apply unique_first_seen.
    + intros x y Hx Hy. unfold p in *. unfold count_ge.
      apply Nat.eqb_eq in Hx, Hy. apply Nat.leb_le. lia.
  - apply Nat.le_trans with (total (sort count_ge (frequencies (values loc))));
      [apply total_firstn|].
    rewrite total_sort.
    apply Nat.le_trans with (List.length (values loc));
      [apply total_frequencies|].
    destruct (position_getitem view "location" loc Hloc) as [i [_ ->]].
    unfold nrows. now rewrite length_map.
Qed.

(** The top ten of the six-restaurant table: C three times, A twice, B
    once. *)
Lemma top10_location_witness :
  let loc := mkSeries object
               [Str "A"; Str "A"; Str "B"; Str "C"; Str "C"; Str "C"] in
  getitem Sample.six "location" = Ok loc
  /\ top10 loc = [(Str "C", 3); (Str "A", 2); (Str "B", 1)]
  /\ List.length (top10 loc) <= 10
  /\ (forall v n, In (v, n) (top10 loc) ->
                  v <> NaN /\ In v (values loc) /\ n = count v (values loc)
                  /\ 0 < n)
  /\ StronglySorted (fun a b => snd b <= snd a) (top10 loc)
  /\ (forall v w n,
        precedes (v, n) (w, n) (top10 loc) ->
        exists l1 l2,
          values loc = l1 ++ w :: l2 /\ ~ In w l1 /\ In v l1)
  /\ total (top10 loc) <= nrows Sample.six.
Proof.
  intro loc. split; [reflexivity|]. split; [reflexivity|].
  apply (top10_location Sample.six loc). reflexivity.
Defined.

End TopTen.

(* ================================================================= *)
(** ** The table of the treemap *)

Section Treemap.
Import Pandas App Spec.







Lemma mean_ok (l : list cell) :
  existsb is_str l = false -> exists m, mean l = Ok m.
Proof.
  intro H. unfold mean. rewrite H.
  destruct (numbers l); eexists; reflexivity.
Qed.

Lemma existsb_false_incl (A : Type) (p : A -> bool) (l l' : list A) :
  existsb p l = false -> incl l' l -> existsb p l' = false.
Proof.
  intros H Hincl. destruct (existsb p l') eqn:E; [|reflexivity].
  apply existsb_exists in E as [x [Hx Px]].
  assert (Ht : existsb p l = true).
  { apply existsb_exists. exists x. split; [now apply Hincl | assumption]. }
  congruence.
Qed.

Lemma group_means_rows (i j c : nat) (rs : list Row) (ks : list key) (n : nat) :
  (forall k, In k ks ->
             exists m, mean (map (cell_at c) (group_rows i j k rs)) = Ok m) ->
  exists out, group_means i j c rs ks n = Ok out
              /\ Forall2 (group_row i j c rs) ks out.
Proof.
  revert n. induction ks as [|k ks IH]; intros n H; simpl.
  - exists []. split; [reflexivity | constructor].
  - destruct (H k (or_introl eq_refl)) as [m Hm]. rewrite Hm.
    destruct (IH (S n)) as [out [-> Ho]]; [intros; apply H; now right|].
    eexists. split; [reflexivity|].
    constructor; [|exact Ho]. exists m. now split.
Qed.







Lemma total_of_sum (qs : list Qc) : total_of qs = Qc_sum qs.
Proof.
  induction qs as [|q qs IH]; [reflexivity|].
  cbn [total_of]. rewrite IH. reflexivity.
Qed.




End Treemap.

(* ================================================================= *)
(** ** The correlation matrix *)

Section Correlation.
Import Pandas App Spec.

Open Scope R_scope.

Lemma entry_corr (df : DataFrame) (i j : nat) :
  entry (corr df) i j
  = if ((i <? List.length (columns df)) && (j <? List.length (columns df)))%nat
    then Some (corr_entry df i j) else None.
Proof.
  unfold entry, corr. cbn [entries].
  set (K := List.length (columns df)).
  rewrite nth_error_map.
  destruct (i <? K)%nat eqn:Ei.
  - apply Nat.ltb_lt in Ei.
    rewrite nth_error_seq. rewrite <- Nat.ltb_lt in Ei. rewrite Ei.
    cbn [option_map]. rewrite nth_error_map, nth_error_seq.
    destruct (j <? K)%nat; reflexivity.
  - rewrite nth_error_seq, Ei. reflexivity.
Qed.



(** *** Arithmetic of one step *)


Lemma INR_S_ge_1 (n : nat) : 1 <= INR (S n).
Proof. rewrite S_INR. pose proof (pos_INR n). lra. Qed.




(** *** A column against itself *)



(** *** Variance *)

Lemma numbers_In (xs : list cell) (q : Qc) :
  In q (numbers xs) <-> In (Num q) xs.
Proof.
  induction xs as [|x xs IH]; simpl; [tauto|].
  destruct x as [s|p|]; simpl; rewrite IH; split; intros H;
    try (now right); try (destruct H as [H|H]; [discriminate | exact H]).
  - destruct H as [->|H]; auto.
  - destruct H as [[= ->]|H]; auto.
Qed.

Lemma same_or_other (c : Qc) (ns : list Qc) :
  (forall q, In q ns -> q = c) \/ (exists q, In q ns /\ q <> c).
Proof.
  induction ns as [|n ns [IH|[q [Hq Hne]]]].
  - left. intros q [].
  - destruct (Qc_eq_dec n c) as [E|E].
    + left. intros q [<-|H]; auto.
    + right. exists n. split; [now left | exact E].
  - right. exists q. split; [now right | exact Hne].
Qed.

Lemma sum_R_const (l : list R) (v : R) :
  (forall x, In x l -> x = v) -> sum_R l = INR (List.length l) * v.
Proof.
  induction l as [|x l IH]; intro H.
  - simpl. lra.
  - cbn [sum_R fold_right List.length]. rewrite S_INR.
    fold (sum_R l). rewrite IH by (intros; apply H; now right).
    rewrite (H x) by now left. lra.
Qed.

Lemma sum_R_zero (f : R -> R) (l : list R) :
  (forall x, In x l -> f x = 0) -> sum_R (map f l) = 0.
Proof.
  induction l as [|x l IH]; intro H; [reflexivity|].
  cbn [map sum_R fold_right]. fold (sum_R (map f l)).
  rewrite IH by (intros; apply H; now right).
  rewrite (H x) by now left. lra.
Qed.

Lemma variance_const (l : list R) (v : R) :
  (forall x, In x l -> x = v) -> variance l = 0.
Proof.
  intro H. unfold variance. destruct l as [|x l].
  - simpl. unfold Rdiv. lra.
  - rewrite sum_R_zero; [unfold Rdiv; lra|].
    intros y Hy. unfold avg. rewrite (sum_R_const _ v H).
    pose proof (INR_S_ge_1 (List.length l)) as HN.
    cbn [List.length]. rewrite (H y Hy). field. lra.
Qed.

Lemma column_variance_varies (xs : list cell) :
  column_variance xs <> 0 ->
  exists p q : Qc, In (Num p) xs /\ In (Num q) xs /\ p <> q.
Proof.
  intro Hv. unfold column_variance in Hv.
  destruct (numbers xs) as [|c ns] eqn:En.
  - exfalso. apply Hv. simpl. unfold variance. simpl. unfold Rdiv. lra.
  - destruct (same_or_other c (c :: ns)) as [Hall|[q [Hq Hne]]].
    + exfalso. apply Hv. apply variance_const with (v := Q2R c).
      intros x Hx. apply in_map_iff in Hx as [q [<- Hq]].
      now rewrite (Hall q Hq).
    + exists q, c. rewrite <- En in Hq. split; [now apply numbers_In|].
      split; [|exact Hne]. apply numbers_In. rewrite En. now left.
Qed.

(** *** Columns that do not vary *)

Lemma welford_const_x (c : Qc) (xs : list cell) :
  forall (ys : list cell) (a : moments),
    (forall p q, In (p, q) (jointly xs ys) -> p = c) ->
    ssqdm_x a = 0 ->
    nobs a = 0%nat \/ meanx a = Q2R c ->
    ssqdm_x (welford a xs ys) = 0.
Proof.
  induction xs as [|x xs IH]; intros ys a Hc H0 Hm; [assumption|].
  destruct ys as [|y ys]; [assumption|].
  cbn [welford]. cbn [jointly] in Hc.
  destruct x as [s|p|]; try (now apply IH).
  destruct y as [t|q|]; try (now apply IH).
  assert (Ep : p = c) by (apply (Hc p q); now left). subst p.
  apply IH.
  - intros p' q' H. apply (Hc p' q'). now right.
  - unfold observe. cbn [ssqdm_x]. rewrite H0.
    destruct Hm as [Hn|Hm].
    + rewrite Hn. simpl INR. field.
    + rewrite Hm. field. pose proof (INR_S_ge_1 (nobs a)). lra.
  - right. unfold observe. cbn [meanx].
    destruct Hm as [Hn|Hm].
    + rewrite Hn. simpl INR. field.
    + rewrite Hm. field. pose proof (INR_S_ge_1 (nobs a)). lra.
Qed.

Lemma welford_const_y (c : Qc) (xs : list cell) :
  forall (ys : list cell) (a : moments),
    (forall p q, In (p, q) (jointly xs ys) -> q = c) ->
    ssqdm_y a = 0 ->
    nobs a = 0%nat \/ meany a = Q2R c ->
    ssqdm_y (welford a xs ys) = 0.
Proof.
  induction xs as [|x xs IH]; intros ys a Hc H0 Hm; [assumption|].
  destruct ys as [|y ys]; [assumption|].
  cbn [welford]. cbn [jointly] in Hc.
  destruct x as [s|p|]; try (now apply IH).
  destruct y as [t|q|]; try (now apply IH).
  assert (Eq : q = c) by (apply (Hc p q); now left). subst q.
  apply IH.
  - intros p' q' H. apply (Hc p' q'). now right.
  - unfold observe. cbn [ssqdm_y]. rewrite H0.
    destruct Hm as [Hn|Hm].
    + rewrite Hn. simpl INR. field.
    + rewrite Hm. field. pose proof (INR_S_ge_1 (nobs a)). lra.
  - right. unfold observe. cbn [meany].
    destruct Hm as [Hn|Hm].
    + rewrite Hn. simpl INR. field.
    + rewrite Hm. field. pose proof (INR_S_ge_1 (nobs a)). lra.
Qed.

Lemma constant_value (l : list Qc) :
  constant l -> exists c, forall p, In p l -> p = c.
Proof.
  intro H. destruct l as [|c l].
  - exists (Q2Qc 0). intros p [].
  - exists c. intros p Hp. apply H; [exact Hp | now left].
Qed.

Lemma nancorr_insufficient (xs ys : list cell) :
  insufficient xs ys -> nancorr xs ys = None.
Proof.
  intro H. unfold nancorr.
  destruct (nobs (welford moments0 xs ys) <? 1)%nat; [reflexivity|].
  assert (Hz : ssqdm_x (welford moments0 xs ys)
               * ssqdm_y (welford moments0 xs ys) = 0).
  { destruct H as [H|H]; apply constant_value in H as [c Hc].
    - rewrite (welford_const_x c); [lra| |reflexivity|now left].
      intros p q Hin. apply Hc. now apply (in_map fst) in Hin.
    - rewrite (welford_const_y c); [lra| |reflexivity|now left].
      intros p q Hin. apply Hc. now apply (in_map snd) in Hin. }
  rewrite Hz, sqrt_0.
  destruct (Req_dec_T 0 0) as [_|E]; [reflexivity | contradiction].
Qed.

Lemma jointly_swap (xs : list cell) :
  forall ys, jointly ys xs = map (fun p => (snd p, fst p)) (jointly xs ys).
Proof.
  induction xs as [|x xs IH]; intros [|y ys]; try reflexivity.
  cbn [jointly]. destruct x, y; cbn [map fst snd]; now rewrite IH.
Qed.

Lemma insufficient_sym (xs ys : list cell) :
  insufficient xs ys -> insufficient ys xs.
Proof.
  unfold insufficient. rewrite (jointly_swap xs ys), !map_map. cbn [fst snd].
  tauto.
Qed.

Lemma jointly_length (xs : list cell) :
  forall ys, (List.length (jointly xs ys) <= List.length xs)%nat.
Proof.
  induction xs as [|x xs IH]; intros [|y ys]; simpl; try lia.
  specialize (IH ys). destruct x, y; simpl; lia.
Qed.

Lemma short_insufficient (xs ys : list cell) :
  (List.length xs <= 1)%nat -> insufficient xs ys.
Proof.
  intro H. left. pose proof (jointly_length xs ys) as Hl.
  destruct (jointly xs ys) as [|a [|b l]]; simpl in *; try lia.
  - intros p q [].
  - intros p q [<-|[]] [<-|[]]. reflexivity.
Qed.

Lemma column_values_length (df : DataFrame) (i : nat) :
  List.length (column_values df i) = nrows df.
Proof. unfold column_values, nrows. apply length_map. Qed.

Lemma nrows_numeric_df (view : DataFrame) :
  nrows (numeric_df view) = nrows view.
Proof.
  unfold numeric_df, select_dtypes, keep_columns, nrows. cbn [rows].
  apply length_map.
Qed.

(** *** The cast to float64 *)

Lemma jointly_cast (xs : list cell) :
  forall (ys : list cell) (p' q' : Qc),
    In (p', q') (jointly (map as_float64 xs) (map as_float64 ys)) ->
    exists p q : Qc,
      In (p, q) (jointly xs ys)
      /\ nearest_float64 p = Some p' /\ nearest_float64 q = Some q'.
Proof.
  induction xs as [|x xs IH]; intros [|y ys] p' q' H;
    try (now simpl in H).
  assert (Hrec : In (p', q') (jointly (map as_float64 xs) (map as_float64 ys))
                 -> exists p q : Qc,
                      In (p, q) (jointly (x :: xs) (y :: ys))
                      /\ nearest_float64 p = Some p'
                      /\ nearest_float64 q = Some q').
  { intro Hin. destruct (IH ys p' q' Hin) as (p & q & Hpq & Ep & Eq).
    exists p, q. split; [|now split].
    cbn [jointly]. destruct x, y; try exact Hpq. now right. }
  cbn [map jointly] in H.
  destruct x as [s|p|]; cbn [as_float64] in H; try (now apply Hrec).
  destruct (nearest_float64 p) as [p1|] eqn:Ep; try (now apply Hrec).
  destruct y as [t|q|]; cbn [as_float64] in H; try (now apply Hrec).
  destruct (nearest_float64 q) as [q1|] eqn:Eq; try (now apply Hrec).
  destruct H as [H|H]; [|now apply Hrec].
  injection H as <- <-. exists p, q. split; [now left | now split].
Qed.

Lemma insufficient_cast (xs ys : list cell) :
  insufficient xs ys -> insufficient (map as_float64 xs) (map as_float64 ys).
Proof.
  intros [H|H]; [left|right]; intros a b Ha Hb;
    apply in_map_iff in Ha as [[a1 a2] [Ea Ha]];
    apply in_map_iff in Hb as [[b1 b2] [Eb Hb]];
    cbn [fst snd] in Ea, Eb; subst;
    apply jointly_cast in Ha as (p1 & q1 & Hin1 & Ep1 & Eq1);
    apply jointly_cast in Hb as (p2 & q2 & Hin2 & Ep2 & Eq2).
  - assert (E : p1 = p2).
    { apply H; [apply (in_map fst _ _ Hin1) | apply (in_map fst _ _ Hin2)]. }
    subst p2. congruence.
  - assert (E : q1 = q2).
    { apply H; [apply (in_map snd _ _ Hin1) | apply (in_map snd _ _ Hin2)]. }
    subst q2. congruence.
Qed.


Lemma entry_cast_insufficient (view : DataFrame) (i j : nat) :
  (i < List.length (columns (numeric_df view)))%nat ->
  (j < List.length (columns (numeric_df view)))%nat ->
  insufficient (float_column (numeric_df view) i)
               (float_column (numeric_df view) j) ->
  entry (heatmap_matrix view) i j = Some None.
Proof.
  intros Hi Hj H. unfold heatmap_matrix. rewrite entry_corr.
  apply Nat.ltb_lt in Hi, Hj. rewrite Hi, Hj. cbn [andb]. f_equal.
  unfold corr_entry. apply nancorr_insufficient.
  destruct (Nat.le_ge_cases j i) as [L|L].
  - now rewrite (Nat.max_l i j), (Nat.min_r i j).
  - rewrite (Nat.max_r i j), (Nat.min_l i j) by assumption.
    now apply insufficient_sym.
Qed.

Lemma heatmap_entry_insufficient (view : DataFrame) (i j : nat) :
  (i < List.length (columns (numeric_df view)))%nat ->
  (j < List.length (columns (numeric_df view)))%nat ->
  insufficient (column_values (numeric_df view) i)
               (column_values (numeric_df view) j) ->
  entry (heatmap_matrix view) i j = Some None.
Proof.
  intros Hi Hj H. apply entry_cast_insufficient; try assumption.
  now apply insufficient_cast.
Qed.





Lemma heatmap_entry_single_row (view : DataFrame) (i j : nat) :
  (nrows view <= 1)%nat ->
  (i < List.length (columns (numeric_df view)))%nat ->
  (j < List.length (columns (numeric_df view)))%nat ->
  entry (heatmap_matrix view) i j = Some None.
Proof.
  intros H1 Hi Hj. apply heatmap_entry_insufficient; try assumption.
  apply short_insufficient.
  now rewrite column_values_length, nrows_numeric_df.
Qed.

Lemma multivariate_heatmap (view : DataFrame) :
  exists rest,
    output (multivariate view)
    = Decor "header" :: Decor "heatmap heading"
      :: Heatmap (heatmap_matrix view) :: rest.
Proof.
  unfold multivariate. rewrite !output_bind.
  cbn [emit output outcome fst snd app].
  eexists. reflexivity.
Qed.

(** C6. The matrix of the heatmap is computed and shown for every view.
    An entry is the undefined value whenever, over the rows where both
    columns hold a number, one of the two columns does not vary; this is
    so for every entry when the view has a single row. *)
Theorem corr_undefined_cells (view : DataFrame) :
  (exists rest,
      output (multivariate view)
      = Decor "header" :: Decor "heatmap heading"
        :: Heatmap (heatmap_matrix view) :: rest)
  /\ (forall i j : nat,
         (i < List.length (columns (numeric_df view)))%nat ->
         (j < List.length (columns (numeric_df view)))%nat ->
         insufficient (column_values (numeric_df view) i)
                      (column_values (numeric_df view) j) ->
         entry (heatmap_matrix view) i j = Some None)
  /\ ((nrows view <= 1)%nat ->
      forall i j : nat,
        (i < List.length (columns (numeric_df view)))%nat ->
        (j < List.length (columns (numeric_df view)))%nat ->
        entry (heatmap_matrix view) i j = Some None).
Proof.
  split; [apply multivariate_heatmap|]. split.
  - intros i j. apply heatmap_entry_insufficient.
  - intros H1 i j. now apply heatmap_entry_single_row.
Qed.

(** The matrix of a single restaurant: rating against cost. *)
Lemma corr_undefined_cells_witness :
  (nrows Sample.one <= 1)%nat
  /\ (1 < List.length (columns (numeric_df Sample.one)))%nat
  /\ (0 < List.length (columns (numeric_df Sample.one)))%nat
  /\ entry (heatmap_matrix Sample.one) 1 0 = Some None.
Proof.
  assert (H1 : (nrows Sample.one <= 1)%nat) by (vm_compute; lia).
  assert (H2 : (1 < List.length (columns (numeric_df Sample.one)))%nat)
    by (vm_compute; lia).
  assert (H3 : (0 < List.length (columns (numeric_df Sample.one)))%nat)
    by (vm_compute; lia).
  repeat (split; [assumption|]).
  exact (proj2 (proj2 (corr_undefined_cells Sample.one)) H1 1%nat 0%nat H2 H3).
Defined.

End Correlation.

(* ================================================================= *)
(** ** Scenarios *)

Section Scenarios.
Import Pandas App Spec.

Lemma cell_num_eq (p q : Qc) : (p == q)%Q -> Num p = Num q.
Proof. intro H. f_equal. now apply Qc_is_canon. Qed.

(** The nearest float64: 7 / 2 is one; 1 / 10 is not; above 2 ^ 53 the
    odd integers are not, and a half goes to the even neighbour; 2 ^ 1024
    is beyond the largest; half the least positive float64 goes to 0. *)
Example scenario_rounding :
  nearest_float64 (Q2Qc (7 # 2)) = Some (Q2Qc (7 # 2))
  /\ nearest_float64 (Q2Qc (1 # 10))
     = Some (Q2Qc (3602879701896397 # 36028797018963968))
  /\ nearest_float64 (Q2Qc (- 1 # 10))
     = Some (Q2Qc (- 3602879701896397 # 36028797018963968))
  /\ nearest_float64 (Q2Qc (inject_Z (2 ^ 53 + 1)))
     = Some (Q2Qc (inject_Z (2 ^ 53)))
  /\ nearest_float64 (Q2Qc (inject_Z (2 ^ 53 + 3)))
     = Some (Q2Qc (inject_Z (2 ^ 53 + 4)))
  /\ nearest_float64 (Q2Qc (inject_Z (2 ^ 62 + 1)))
     = Some (Q2Qc (inject_Z (2 ^ 62)))
  /\ nearest_float64 (Q2Qc (inject_Z (2 ^ 1024 - 2 ^ 970 - 1)))
     = Some (Q2Qc (inject_Z (2 ^ 1024 - 2 ^ 971)))
  /\ nearest_float64 (Q2Qc (inject_Z (2 ^ 1024 - 2 ^ 970))) = None
  /\ nearest_float64 (Q2Qc (1 # 2 ^ 1075)) = Some (Q2Qc 0)
  /\ nearest_float64 (Q2Qc (3 # 2 ^ 1075)) = Some (Q2Qc (1 # 2 ^ 1073)).
Proof. repeat split; vm_compute; reflexivity. Qed.

(** The mean of 100, 100 and 200 is 400 / 3 as a float64; the mean of
    three cells 2 ^ 53 + 1 is 2 ^ 53. *)
Example scenario_mean_rounded :
  mean [Sample.num 100; Sample.num 100; NaN; Sample.num 200]
  = Ok (Num (Q2Qc (4691249611844267 # 35184372088832)))
  /\ mean [Sample.num (2 ^ 53 + 1); Sample.num (2 ^ 53 + 1);
           Sample.num (2 ^ 53 + 1)]
     = Ok (Sample.num (2 ^ 53)).
Proof. split; vm_compute; reflexivity. Qed.

(** Three restaurants in A, A, B rated 4, 3, 5: the selection [A] keeps
    two rows, of mean rating 7/2. *)
Example scenario_filter_A :
  let view := mkDF Sample.schema (firstn 2 (rows Sample.three)) in
  let rate := mkSeries float64 [Sample.num 4; Sample.num 3] in
  df_filtered Sample.three [Str "A"] = Ok view
  /\ nrows view = 2
  /\ getitem view "rate" = Ok rate
  /\ mean (values rate) = Ok (Num (Q2Qc (7 # 2))).
Proof.
  intros view rate. split; [reflexivity|]. split; [reflexivity|].
  split; [reflexivity|].
  unfold mean. cbn [rate values existsb is_str Sample.num orb numbers].
  first [reflexivity | f_equal; apply cell_num_eq; reflexivity].
Qed.

(** The empty selection keeps the three rows, of mean rating 4. *)
Example scenario_filter_all :
  let rate := mkSeries float64 [Sample.num 4; Sample.num 3; Sample.num 5] in
  df_filtered Sample.three [] = Ok Sample.three
  /\ nrows Sample.three = 3
  /\ getitem Sample.three "rate" = Ok rate
  /\ mean (values rate) = Ok (Sample.num 4).
Proof.
  intro rate. split; [reflexivity|]. split; [reflexivity|].
  split; [reflexivity|].
  unfold mean. cbn [rate values existsb is_str Sample.num orb numbers].
  first [reflexivity | f_equal; apply cell_num_eq; reflexivity].
Qed.

(** A column that reads A, A, B, C, C, C counts C three times, A twice and
    B once. *)
Example scenario_value_counts :
  value_counts [Str "A"; Str "A"; Str "B"; Str "C"; Str "C"; Str "C"]
  = [(Str "C", 3); (Str "A", 2); (Str "B", 1)].
Proof. reflexivity. Qed.

(** Equal counts keep the order in which the values are first met. *)
Example scenario_ties :
  value_counts [Str "B"; Str "A"; Str "C"; Str "A"; Str "B"; Str "D"; Str "C"]
  = [(Str "B", 2); (Str "A", 2); (Str "C", 2); (Str "D", 1)].
Proof. reflexivity. Qed.

(** Under the selection [B] the pair (A, Cafe) has no row left: the table
    of the treemap has the one row of (B, Cafe), and no error is raised. *)
Example scenario_treemap_pair_absent :
  let view := mkDF Sample.schema
                [Sample.restaurant 2 "B" "Cafe" "Yes" "No" 5 700] in
  df_filtered Sample.six [Str "B"] = Ok view
  /\ treemap_df view
     = Ok (mkDF [("location", object); ("rest_type", object);
                 ("cost", float64)]
                [mkRow 0 [Str "B"; Str "Cafe"; Sample.num 700]]).
Proof.
  intro view. split; [reflexivity|].
  unfold treemap_df, groupby_mean. cbn -[mean getitem top10].
  unfold mean. cbn [map cell_at nth cells Sample.restaurant existsb is_str
                    Sample.num orb numbers].
  first [reflexivity
        | rewrite (cell_num_eq _ (Q2Qc (inject_Z 700))) by reflexivity;
          reflexivity].
Qed.

(** A single restaurant: every cell of the matrix is undefined, and the
    heatmap is still drawn. *)
Example scenario_single_row :
  entry (heatmap_matrix Sample.one) 0 0 = Some None
  /\ entry (heatmap_matrix Sample.one) 0 1 = Some None
  /\ entry (heatmap_matrix Sample.one) 1 1 = Some None
  /\ In (Heatmap (heatmap_matrix Sample.one))
        (output (multivariate Sample.one)).
Proof.
  assert (H1 : nrows Sample.one <= 1) by (vm_compute; lia).
  assert (HK : List.length (columns (numeric_df Sample.one)) = 2)
    by reflexivity.
  destruct (multivariate_heatmap Sample.one) as [rest Hr].
  repeat split;
    try (apply heatmap_entry_single_row;
         [exact H1 | rewrite HK; lia | rewrite HK; lia]).
  rewrite Hr. simpl. tauto.
Qed.

End Scenarios.

(* ================================================================= *)
(** ** More on the filter stage *)

Section FilterMore.
Import Pandas App Spec.

Lemma filter_keeps_all (A : Type) (p : A -> bool) (l : list A) :
  (forall x, In x l -> p x = true) -> filter p l = l.
Proof.
  induction l as [|x l IH]; intro H; simpl; [reflexivity|].
  rewrite (H x) by now left.
  f_equal. apply IH. intros y Hy. apply H. now right.
Qed.

Lemma filter_both (A : Type) (p q : A -> bool) (l : list A) :
  filter q (filter p l) = filter (fun x => p x && q x) l.
Proof.
  induction l as [|x l IH]; simpl; [reflexivity|].
  destruct (p x); simpl; [|exact IH].
  destruct (q x); now rewrite IH.
Qed.

Lemma map_filter_cells (i : nat) (p : cell -> bool) (rs : list Row) :
  map (cell_at i) (filter (fun r => p (cell_at i r)) rs)
  = filter p (map (cell_at i) rs).
Proof.
  induction rs as [|r rs IH]; simpl; [reflexivity|].
  destruct (p (cell_at i r)); simpl; now rewrite IH.
Qed.

(** The view of a non-empty selection, and its location column. *)
Lemma view_of_selection (df : DataFrame) (loc : Series) (sel : list cell) :
  getitem df "location" = Ok loc -> sel <> [] ->
  let view := mkDF (columns df)
                (filter (fun r => member (location_of df r) sel) (rows df)) in
  df_filtered df sel = Ok view
  /\ getitem view "location"
     = Ok (mkSeries (sdtype loc)
             (filter (fun c => member c sel) (values loc)))
  /\ forall r, location_of view r = location_of df r.
Proof.
  intros Hloc Hsel view.
  split; [now apply df_filtered_rows with (loc := loc)|].
  destruct (position_getitem df "location" loc Hloc) as [i [Hi Hv]].
  split.
  - unfold getitem, view. cbn [columns rows]. rewrite Hi, Hv. do 2 f_equal.
    unfold location_of, field. rewrite Hi.
    apply (map_filter_cells i (fun c => member c sel)).
  - intro r. reflexivity.
Qed.

Lemma df_filtered_location (df view : DataFrame) (sel : list cell) :
  sel <> [] -> df_filtered df sel = Ok view ->
  exists loc, getitem df "location" = Ok loc.
Proof.
  intros Hsel H. unfold df_filtered in H.
  destruct sel as [|c sel]; [contradiction|]. cbn [truthy] in H.
  destruct (getitem df "location") as [loc|e]; [now exists loc | discriminate].
Qed.

(** X1. Filtering again: a view filtered by the selection that made it is
    unchanged, and a view of [s1] filtered by [s2] holds the rows of the
    dataset whose location is in both, in their order. *)
Theorem filter_stage_twice (df v1 : DataFrame) (s1 : list cell) :
  df_filtered df s1 = Ok v1 ->
  df_filtered v1 s1 = Ok v1
  /\ forall s2, s1 <> [] -> s2 <> [] ->
       exists v2,
         df_filtered v1 s2 = Ok v2
         /\ columns v2 = columns df
         /\ rows v2
            = filter (fun r => member (location_of df r) s1
                               && member (location_of df r) s2) (rows df)
         /\ df_filtered df s2 = Ok (mkDF (columns df)
                                      (filter (fun r => member (location_of df r) s2)
                                              (rows df))).
Proof.
  intro H1.
  assert (Hd : s1 = [] \/ s1 <> [])
    by (destruct s1; [now left | right; discriminate]).
  destruct Hd as [->|Hs1].
  - unfold df_filtered in *. cbn [truthy] in *. rewrite copy_id in *.
    injection H1 as <-. split; [reflexivity|]. intros s2 Hc. now contradiction Hc.
  - destruct (df_filtered_location df v1 s1 Hs1 H1) as [loc Hloc].
    destruct (view_of_selection df loc s1 Hloc Hs1) as [Hv [Hvl Hsame]].
    assert (E1 : v1 = mkDF (columns df)
                        (filter (fun r => member (location_of df r) s1)
                                (rows df))) by congruence.
    subst v1. clear H1.
    assert (Htwice : forall s2, s2 <> [] ->
              df_filtered
                (mkDF (columns df)
                   (filter (fun r => member (location_of df r) s1) (rows df)))
                s2
              = Ok (mkDF (columns df)
                      (filter (fun r => member (location_of df r) s1
                                        && member (location_of df r) s2)
                              (rows df)))).
    { intros s2 Hs2.
      rewrite (df_filtered_rows _ _ s2 Hvl Hs2). cbn [columns rows].
      do 2 f_equal. rewrite filter_both. reflexivity. }
    split.
    + rewrite (Htwice s1 Hs1). do 2 f_equal.
      apply filter_ext. intro r. now rewrite andb_diag.
    + intros s2 _ Hs2. eexists. split; [apply (Htwice s2 Hs2)|].
      cbn [columns rows]. split; [reflexivity|]. split; [reflexivity|].
      now apply df_filtered_rows with (loc := loc).
Qed.

(** The three-restaurant table filtered by [A], then by [A; B]. *)
Lemma filter_stage_twice_witness :
  let v1 := mkDF Sample.schema (firstn 2 (rows Sample.three)) in
  df_filtered Sample.three [Str "A"] = Ok v1
  /\ df_filtered v1 [Str "A"] = Ok v1
  /\ exists v2,
       df_filtered v1 [Str "A"; Str "B"] = Ok v2
       /\ columns v2 = columns Sample.three.
Proof.
  intro v1.
  assert (H : df_filtered Sample.three [Str "A"] = Ok v1) by reflexivity.
  split; [exact H|].
  destruct (filter_stage_twice Sample.three v1 [Str "A"] H) as [H1 H2].
  split; [exact H1|].
  destruct (H2 [Str "A"; Str "B"]) as [v2 [E [Hc _]]]; try discriminate.
  exists v2. split; [exact E | exact Hc].
Defined.

(** X2. Selecting every option is selecting nothing: with all the
    distinct locations of the dataset selected, the view is the dataset. *)
Theorem select_all_locations (df : DataFrame) (loc : Series) :
  getitem df "location" = Ok loc ->
  df_filtered df (unique (values loc)) = Ok df
  /\ df_filtered df (unique (values loc)) = df_filtered df [].
Proof.
  intro Hloc.
  assert (H : df_filtered df (unique (values loc)) = Ok df).
  { destruct (unique (values loc)) as [|c u] eqn:Eu.
    - unfold df_filtered. cbn [truthy]. now rewrite copy_id.
    - rewrite (df_filtered_rows df loc (c :: u) Hloc) by discriminate.
      rewrite <- Eu. rewrite filter_keeps_all; [now destruct df|].
      intros r Hr. apply member_In, unique_In.
      destruct (position_getitem df "location" loc Hloc) as [i [Hi Hv]].
      unfold location_of, field. rewrite Hi, Hv. now apply in_map. }
  split; [exact H|]. rewrite H. unfold df_filtered. cbn [truthy].
  now rewrite copy_id.
Qed.

(** All three locations of the six-restaurant table selected. *)
Lemma select_all_locations_witness :
  let loc := mkSeries object
               [Str "A"; Str "A"; Str "B"; Str "C"; Str "C"; Str "C"] in
  getitem Sample.six "location" = Ok loc
  /\ unique (values loc) = [Str "A"; Str "B"; Str "C"]
  /\ df_filtered Sample.six (unique (values loc)) = Ok Sample.six.
Proof.
  intro loc.
  assert (H : getitem Sample.six "location" = Ok loc) by reflexivity.
  split; [exact H|]. split; [reflexivity|].
  exact (proj1 (select_all_locations Sample.six loc H)).
Defined.

End FilterMore.

(* ================================================================= *)
(** ** The pass up to the pages *)

Section PassShape.
Import Pandas App Spec.

Lemma bind_emit (B : Type) (e : event) (k : unit -> M B) :
  bind (emit e) k = (e :: output (k tt), outcome (k tt)).
Proof. unfold bind, emit. now destruct (k tt). Qed.

Lemma bind_lift_raise (A B : Type) (e : exn) (k : A -> M B) :
  bind (lift (Raise e)) k = ([], Raise e).
Proof. reflexivity. Qed.

Lemma pair_output_outcome (A : Type) (m : M A) : (output m, outcome m) = m.
Proof. now destruct m. Qed.

(** A pass over a dataset that is not empty: the sidebar, then the page. *)
Lemma run_pages (env : Env) (df view : DataFrame) (loc : Series) :
  load_data env = Ok df ->
  empty df = false ->
  getitem df "location" = Ok loc ->
  df_filtered df (selected_location env) = Ok view ->
  run env
  = ([Decor "page config"; Decor "style sheet"; Decor "logo"; Decor "rule";
      Radio; Decor "rule"; Decor "filter heading";
      MultiSelect (unique (values loc)) (firstn 5 (unique (values loc)))]
     ++ output (match page env with
                | Home => home view
                | Univariate => univariate view (col_to_plot env)
                | Bivariate => bivariate view
                | Multivariate => multivariate view
                end),
     outcome (match page env with
              | Home => home view
              | Univariate => univariate view (col_to_plot env)
              | Bivariate => bivariate view
              | Multivariate => multivariate view
              end)).
Proof.
  intros Hl He Hloc Hv. unfold run.
  rewrite !bind_emit. cbv beta. rewrite Hl, bind_lift_ok.
  rewrite !bind_emit. cbv beta. rewrite He. cbn [negb].
  rewrite Hloc, bind_lift_ok, bind_emit. cbv beta.
  rewrite Hv, bind_lift_ok.
  cbn [output outcome fst snd app]. reflexivity.
Qed.

Lemma position_none (name : string) (cols : list (string * dtype)) :
  existsb (fun c => String.eqb (fst c) name) cols = false ->
  position name cols = None.
Proof.
  induction cols as [|[n dt] cols IH]; simpl; [reflexivity|].
  intro H. apply orb_false_iff in H as [H1 H2].
  rewrite H1, IH by assumption. reflexivity.
Qed.

Lemma position_some (name : string) (cols : list (string * dtype)) :
  existsb (fun c => String.eqb (fst c) name) cols = true ->
  exists i dt, position name cols = Some (i, dt).
Proof.
  induction cols as [|[n dt] cols IH]; simpl; [discriminate|].
  destruct (String.eqb n name); simpl.
  - intros _. now exists 0, dt.
  - intro H. destruct (IH H) as [i [dt' ->]]. now exists (S i), dt'.
Qed.

Lemma has_column_getitem (df : DataFrame) (name : string) :
  has_column df name = true <-> exists s, getitem df name = Ok s.
Proof.
  unfold has_column, getitem. split.
  - intro H. destruct (position_some name (columns df) H) as [i [dt ->]].
    eexists. reflexivity.
  - intros [s H].
    destruct (existsb (fun c => String.eqb (fst c) name) (columns df)) eqn:E;
      [reflexivity|].
    rewrite (position_none name _ E) in H. discriminate.
Qed.

(** X3. A dataset that is not empty but has no location column: the pass
    ends with the key error of the column lookup, before the location
    filter is shown; nothing of a page is written. *)
Theorem missing_location_column (env : Env) (df : DataFrame) :
  load_data env = Ok df ->
  empty df = false ->
  has_column df "location" = false ->
  run env
  = ([Decor "page config"; Decor "style sheet"; Decor "logo"; Decor "rule";
      Radio; Decor "rule"; Decor "filter heading"],
     Raise (KeyError "location")).
Proof.
  intros Hl He Hc. unfold run.
  rewrite !bind_emit. cbv beta. rewrite Hl, bind_lift_ok.
  rewrite !bind_emit. cbv beta. rewrite He. cbn [negb].
  unfold getitem. rewrite (position_none "location" _ Hc).
  reflexivity.
Qed.

(** A table of ratings alone. *)
Lemma missing_location_column_witness :
  let df := mkDF [("rate", float64)] [mkRow 0 [Sample.num 4]] in
  let env := Sample.env_of df Home [] rate in
  load_data env = Ok df
  /\ empty df = false
  /\ has_column df "location" = false
  /\ run env
     = ([Decor "page config"; Decor "style sheet"; Decor "logo";
         Decor "rule"; Radio; Decor "rule"; Decor "filter heading"],
        Raise (KeyError "location")).
Proof.
  intros df env.
  split; [reflexivity|]. split; [reflexivity|]. split; [reflexivity|].
  apply (missing_location_column env df); reflexivity.
Defined.

(** X4. A file that holds the index column and nothing else: the column is
    dropped on load, the dataset is then empty whatever rows it has, and
    the pass shows the error box and stops. *)
Theorem index_column_alone (env : Env) (df : DataFrame) :
  read_parquet env = Ok df ->
  columns df <> [] ->
  (forall c, In c (columns df) -> fst c = index_column) ->
  exists out,
    load_data env = Ok out
    /\ columns out = []
    /\ empty out = true
    /\ outcome (run env) = Raise StopException
    /\ In (ErrorBox load_error) (output (run env)).
Proof.
  intros Hp Hne Hall.
  assert (Hk : filter kept (columns df) = []).
  { clear Hne. induction (columns df) as [|c cols IH]; simpl; [reflexivity|].
    unfold kept at 1. rewrite (Hall c) by now left.
    rewrite String.eqb_refl. cbn [negb]. apply IH.
    intros c' Hc'. apply Hall. now right. }
  assert (Hc : has_column df index_column = true).
  { unfold has_column. destruct (columns df) as [|c cols]; [contradiction|].
    simpl. rewrite (Hall c) by now left. now rewrite String.eqb_refl. }
  assert (Hl : load_data env = Ok (drop df index_column)).
  { unfold load_data. rewrite Hp. fold index_column. now rewrite Hc. }
  assert (Hcols : columns (drop df index_column) = []).
  { unfold drop, keep_columns. cbn [columns]. fold kept.
    now rewrite select_columns. }
  assert (He : empty (drop df index_column) = true).
  { unfold empty. rewrite Hcols. now destruct (rows (drop df index_column)). }
  exists (drop df index_column).
  split; [exact Hl|]. split; [exact Hcols|]. split; [exact He|].
  assert (Hr : run env
               = ([Decor "page config"; Decor "style sheet"; Decor "logo";
                   Decor "rule"; Radio; Decor "rule"; Decor "filter heading";
                   ErrorBox load_error],
                  Raise StopException)).
  { unfold run. rewrite !bind_emit. cbv beta. rewrite Hl, bind_lift_ok.
    rewrite !bind_emit. cbv beta. rewrite He. reflexivity. }
  rewrite Hr. split; [reflexivity|]. simpl. tauto.
Qed.

(** Three rows of an index column. *)
Lemma index_column_alone_witness :
  let df := mkDF [("Unnamed: 0", int64)]
                 [mkRow 0 [Sample.num 0]; mkRow 1 [Sample.num 1];
                  mkRow 2 [Sample.num 2]] in
  let env := Sample.env_of df Home [] rate in
  read_parquet env = Ok df
  /\ columns df <> []
  /\ (forall c, In c (columns df) -> fst c = index_column)
  /\ exists out,
       load_data env = Ok out
       /\ columns out = []
       /\ empty out = true
       /\ outcome (run env) = Raise StopException
       /\ In (ErrorBox load_error) (output (run env)).
Proof.
  intros df env.
  assert (H1 : read_parquet env = Ok df) by reflexivity.
  assert (H2 : columns df <> []) by discriminate.
  assert (H3 : forall c, In c (columns df) -> fst c = index_column).
  { intros c [<-|[]]. reflexivity. }
  split; [exact H1|]. split; [exact H2|]. split; [exact H3|].
  exact (index_column_alone env df H1 H2 H3).
Defined.

End PassShape.

(* ================================================================= *)
(** ** The location filter and its default *)

Section Options.
Import Pandas App Spec.

Lemma firstn_incl (A : Type) (n : nat) (l : list A) : incl (firstn n l) l.
Proof. intros x Hx. now apply In_firstn in Hx. Qed.

Lemma unique_nonempty (l : list cell) : l <> [] -> unique l <> [].
Proof. destruct l; [contradiction | discriminate]. Qed.

Lemma unique_length (l : list cell) :
  List.length (unique l) <= List.length l.
Proof.
  unfold unique. induction l as [|x l IH]; simpl; [lia|].
  pose proof (filter_length_le (fun y => negb (cell_eqb y x)) (uniq cell_eqb l)).
  lia.
Qed.

(** The view is not empty when the selection holds a value of the
    location column. *)
Lemma view_nonempty (df : DataFrame) (loc : Series) (sel : list cell) (c : cell) :
  getitem df "location" = Ok loc ->
  In c sel -> In c (values loc) ->
  exists view, df_filtered df sel = Ok view /\ empty view = false.
Proof.
  intros Hloc Hc Hv.
  assert (Hsel : sel <> []) by (intros ->; contradiction).
  eexists. split; [now apply df_filtered_rows with (loc := loc)|].
  destruct (position_getitem df "location" loc Hloc) as [i [Hi Hval]].
  rewrite Hval in Hv. apply in_map_iff in Hv as [r [Hr Hin]].
  assert (Hf : In r (filter (fun r => member (location_of df r) sel) (rows df))).
  { apply filter_In. split; [exact Hin|]. apply member_In.
    unfold location_of, field. now rewrite Hi, Hr. }
  unfold empty. cbn [rows columns].
  destruct (filter (fun r => member (location_of df r) sel) (rows df));
    [contradiction|].
  destruct (columns df); [discriminate | reflexivity].
Qed.

(** X5. The location filter of a dataset that is not empty: its options
    are the locations of the dataset, each once, in order of first
    appearance; its default is the first five options at most; and the
    pass shows exactly this filter. *)
Theorem location_filter_options (env : Env) (df : DataFrame) (loc : Series) :
  load_data env = Ok df ->
  empty df = false ->
  getitem df "location" = Ok loc ->
  let options := unique (values loc) in
  let default := firstn 5 options in
  NoDup options
  /\ (forall c, In c options <-> In c (values loc))
  /\ (forall v w, precedes v w options ->
        exists l1 l2, values loc = l1 ++ w :: l2 /\ ~ In w l1 /\ In v l1)
  /\ 0 < List.length options <= nrows df
  /\ List.length default = Nat.min 5 (List.length options)
  /\ incl default options
  /\ exists before after,
       output (run env) = before ++ MultiSelect options default :: after
       /\ forall e, In e before -> from_view e = false.
Proof.
  intros Hl He Hloc options default.
  destruct (position_getitem df "location" loc Hloc) as [i [Hi Hval]].
  split; [apply unique_NoDup|]. split; [apply unique_In|].
  split; [intros v w; apply unique_first_seen|]. split.
  - assert (Hlen : List.length (values loc) = nrows df).
    { rewrite Hval. unfold nrows. apply length_map. }
    pose proof (unique_length (values loc)) as Hu. fold options in Hu.
    split; [|lia].
    assert (Hne : options <> []).
    { apply unique_nonempty. intro E. rewrite E in Hlen.
      unfold empty, nrows in *. destruct (rows df); [discriminate|].
      discriminate. }
    destruct options; [contradiction | simpl; lia].
  - split; [apply length_firstn|]. split; [apply firstn_incl|].
    unfold run.
    rewrite !bind_emit. cbv beta. rewrite Hl, bind_lift_ok.
    rewrite !bind_emit. cbv beta. rewrite He. cbn [negb].
    rewrite Hloc, bind_lift_ok, bind_emit. cbv beta.
    cbn [output outcome fst snd].
    exists [Decor "page config"; Decor "style sheet"; Decor "logo";
            Decor "rule"; Radio; Decor "rule"; Decor "filter heading"].
    eexists. split; [reflexivity|].
    intros e H. repeat (destruct H as [<-|H]; [reflexivity|]). contradiction.
Qed.

(** The location filter of the six-restaurant table. *)
Lemma location_filter_options_witness :
  let env := Sample.env_of Sample.six Home [] rate in
  let loc := mkSeries object
               [Str "A"; Str "A"; Str "B"; Str "C"; Str "C"; Str "C"] in
  load_data env = Ok Sample.six
  /\ empty Sample.six = false
  /\ getitem Sample.six "location" = Ok loc
  /\ unique (values loc) = [Str "A"; Str "B"; Str "C"]
  /\ NoDup (unique (values loc))
  /\ List.length (firstn 5 (unique (values loc)))
     = Nat.min 5 (List.length (unique (values loc))).
Proof.
  intros env loc.
  assert (H1 : load_data env = Ok Sample.six) by reflexivity.
  assert (H2 : empty Sample.six = false) by reflexivity.
  assert (H3 : getitem Sample.six "location" = Ok loc) by reflexivity.
  split; [exact H1|]. split; [exact H2|]. split; [exact H3|].
  split; [reflexivity|].
  destruct (location_filter_options env Sample.six loc H1 H2 H3)
    as (N & _ & _ & _ & L & _).
  split; [exact N | exact L].
Defined.

(** X6. With the default of the filter as the selection, the view of a
    dataset that is not empty is not empty: it holds the rows of the first
    five locations met, and no page shows the warning. *)
Theorem default_selection_view (env : Env) (df : DataFrame) (loc : Series) :
  load_data env = Ok df ->
  empty df = false ->
  getitem df "location" = Ok loc ->
  selected_location env = firstn 5 (unique (values loc)) ->
  exists view,
    df_filtered df (selected_location env) = Ok view
    /\ empty view = false
    /\ (forall r, In r (rows view)
                  <-> In r (rows df)
                      /\ In (location_of df r) (firstn 5 (unique (values loc))))
    /\ no_warning (run env).
Proof.
  intros Hl He Hloc Hsel.
  destruct (position_getitem df "location" loc Hloc) as [i [Hi Hval]].
  assert (Hne : values loc <> []).
  { rewrite Hval. unfold empty in He.
    destruct (rows df); [discriminate | discriminate]. }
  destruct (unique (values loc)) as [|c u] eqn:Eu;
    [now apply unique_nonempty in Hne|].
  assert (Hc : In c (values loc)).
  { apply unique_In. unfold unique in *. rewrite Eu. now left. }
  assert (Hcs : In c (selected_location env)) by (rewrite Hsel; now left).
  destruct (view_nonempty df loc _ c Hloc Hcs Hc) as [view [Hv Hnv]].
  exists view. split; [exact Hv|]. split; [exact Hnv|]. split.
  - assert (Hs : selected_location env <> []) by (rewrite Hsel; discriminate).
    rewrite (df_filtered_rows df loc _ Hloc Hs) in Hv.
    injection Hv as <-. cbn [rows]. intro r.
    rewrite filter_In, member_In, Hsel. tauto.
  - now apply no_warning_run with (df := df) (view := view) (loc := loc).
Qed.

(** The treemap page of the six-restaurant table under the default. *)
Lemma default_selection_view_witness :
  let env := Sample.env_of Sample.six Multivariate
               [Str "A"; Str "B"; Str "C"] cost in
  let loc := mkSeries object
               [Str "A"; Str "A"; Str "B"; Str "C"; Str "C"; Str "C"] in
  load_data env = Ok Sample.six
  /\ empty Sample.six = false
  /\ getitem Sample.six "location" = Ok loc
  /\ selected_location env = firstn 5 (unique (values loc))
  /\ exists view,
       df_filtered Sample.six (selected_location env) = Ok view
       /\ empty view = false
       /\ (forall r, In r (rows view)
                     <-> In r (rows Sample.six)
                         /\ In (location_of Sample.six r)
                               (firstn 5 (unique (values loc))))
       /\ no_warning (run env).
Proof.
  intros env loc.
  assert (H1 : load_data env = Ok Sample.six) by reflexivity.
  assert (H2 : empty Sample.six = false) by reflexivity.
  assert (H3 : getitem Sample.six "location" = Ok loc) by reflexivity.
  assert (H4 : selected_location env = firstn 5 (unique (values loc)))
    by reflexivity.
  split; [exact H1|]. split; [exact H2|]. split; [exact H3|].
  split; [exact H4|].
  exact (default_selection_view env Sample.six loc H1 H2 H3 H4).
Defined.

End Options.

(* ================================================================= *)
(** ** Frequency tables *)

Section Frequencies.
Import Pandas App Spec.

Lemma cell_eqb_sym (a b : cell) : cell_eqb a b = cell_eqb b a.
Proof.
  destruct (cell_eqb a b) eqn:E.
  - apply cell_eqb_eq in E. subst. symmetry. apply cell_eqb_refl.
  - symmetry. apply cell_eqb_neq. apply cell_eqb_neq in E. congruence.
Qed.

Lemma member_not_In (c : cell) (u : list cell) :
  ~ In c u -> member c u = false.
Proof.
  intro H. destruct (member c u) eqn:E; [|reflexivity].
  apply member_In in E. contradiction.
Qed.

Lemma count_plus_members (x : cell) (u l : list cell) :
  ~ In x u ->
  count x l + List.length (filter (fun d => member d u) l)
  = List.length (filter (fun d => member d (x :: u)) l).
Proof.
  intro Hx. unfold count. induction l as [|d l IH]; [reflexivity|].
  cbn [filter member existsb]. fold (member d u).
  rewrite (cell_eqb_sym x d).
  destruct (cell_eqb d x) eqn:E.
  - apply cell_eqb_eq in E. subst d. rewrite (member_not_In x u Hx).
    cbn [orb List.length]. cbn [member existsb] in IH. lia.
  - cbn [orb]. destruct (member d u); cbn [List.length];
      cbn [member existsb] in IH; lia.
Qed.

Lemma counts_sum (u l : list cell) :
  NoDup u ->
  fold_right Nat.add 0 (map (fun c => count c l) u)
  = List.length (filter (fun d => member d u) l).
Proof.
  induction 1 as [|x u Hx Hu IH]; cbn [map fold_right].
  - induction l as [|d l IHl]; [reflexivity | exact IHl].
  - rewrite IH. now apply count_plus_members.
Qed.

Lemma total_frequencies_exact (l : list cell) :
  total (frequencies l) = List.length (dropna l).
Proof.
  unfold total, frequencies. rewrite map_map. cbn [snd].
  rewrite counts_sum by apply unique_NoDup.
  unfold dropna at 2. f_equal. apply filter_ext_in. intros d Hd.
  destruct (is_nan d) eqn:En; cbn [negb].
  - apply member_not_In. rewrite unique_In. unfold dropna.
    rewrite filter_In, En. intros [_ H]. discriminate.
  - apply member_In, unique_In. unfold dropna. apply filter_In.
    now rewrite En.
Qed.

Lemma sort_length (A : Type) (le : A -> A -> bool) (l : list A) :
  List.length (sort le l) = List.length l.
Proof.
  induction l as [|x l IH]; simpl; [reflexivity|].
  now rewrite insert_length, IH.
Qed.

(** X7. The table of value counts of a column: one entry for each
    distinct value that is not missing, with the number of its
    occurrences; larger counts first; the counts add up to the number of
    cells that are not missing. *)
Theorem value_counts_table (l : list cell) :
  (forall v n, In (v, n) (value_counts l)
               <-> v <> NaN /\ In v l /\ n = count v l)
  /\ List.length (value_counts l) = List.length (unique (dropna l))
  /\ StronglySorted (fun a b => snd b <= snd a) (value_counts l)
  /\ total (value_counts l) = List.length (dropna l)
  /\ (~ In NaN l -> total (value_counts l) = List.length l).
Proof.
  unfold value_counts. split; [|split; [|split; [|split]]].
  - intros v n. rewrite sort_In. apply frequencies_In.
  - rewrite sort_length. unfold frequencies. apply length_map.
  - apply sorted_weaken with (R := fun a b => count_ge a b = true).
    + intros a b H. now apply Nat.leb_le.
    + apply sort_sorted; [apply count_ge_total | apply count_ge_trans].
  - rewrite total_sort. apply total_frequencies_exact.
  - intro Hn. rewrite total_sort, total_frequencies_exact.
    unfold dropna. rewrite filter_keeps_all; [reflexivity|].
    intros d Hd. destruct d; try reflexivity. contradiction.
Qed.

(** The types of the six-restaurant table, one missing. *)
Lemma value_counts_table_witness :
  let l := [Str "Cafe"; NaN; Str "Bar"; Str "Cafe"] in
  value_counts l = [(Str "Cafe", 2); (Str "Bar", 1)]
  /\ total (value_counts l) = List.length (dropna l)
  /\ List.length (value_counts l) = List.length (unique (dropna l)).
Proof.
  intro l. split; [reflexivity|].
  destruct (value_counts_table l) as (_ & L & _ & T & _).
  split; [exact T | exact L].
Defined.

Lemma count_filter_member (v : cell) (sel l : list cell) :
  member v sel = true ->
  count v (filter (fun c => member c sel) l) = count v l.
Proof.
  intro Hv. unfold count. f_equal. apply filter_filter_weaker.
  intros d _ Hd. apply cell_eqb_eq in Hd. now subst d.
Qed.

Lemma px_columns_ok (df : DataFrame) (names : list string) :
  (forall n, In n names -> has_column df n = true) ->
  px_columns df names = ret tt.
Proof.
  induction names as [|n names IH]; intro H; cbn [px_columns];
    [reflexivity|].
  rewrite (H n) by now left. apply IH. intros m Hm. apply H. now right.
Qed.

Lemma bind_ret (A B : Type) (a : A) (k : A -> M B) : bind (ret a) k = k a.
Proof. apply bind_lift_ok. Qed.

(** X8. The bivariate page after a non-empty selection, for a dataset
    with the columns the page draws: the page ends normally; the scatter
    and the box chart are given the view; each bar of the bar chart is a
    selected location, with the number of its rows in the whole dataset. *)
Theorem bivariate_after_selection (df : DataFrame) (loc : Series)
        (sel : list cell) :
  getitem df "location" = Ok loc ->
  sel <> [] ->
  (forall n, In n ["cost"; "rate"; "online_order"; "book_table"] ->
             has_column df n = true) ->
  exists view vloc,
    df_filtered df sel = Ok view
    /\ getitem view "location" = Ok vloc
    /\ bivariate view
       = ([Decor "header"; Decor "tabs"; Decor "price heading"; Scatter view;
           Decor "locations heading"; Bar (top10 vloc);
           Decor "booking heading"; Box view],
          Ok tt)
    /\ forall v n, In (v, n) (top10 vloc) ->
                   In v sel /\ n = count v (values loc) /\ 0 < n.
Proof.
  intros Hloc Hsel Hcols.
  destruct (view_of_selection df loc sel Hloc Hsel) as [Hv [Hvl _]].
  eexists. eexists. split; [exact Hv|]. split; [exact Hvl|]. split.
  - unfold bivariate. rewrite ?bind_emit. cbv beta.
    rewrite (px_columns_ok _ ["cost"; "rate"; "online_order"]), bind_ret
      by (intros n Hn; apply Hcols; simpl in *; tauto).
    rewrite ?bind_emit. cbv beta. rewrite Hvl, bind_lift_ok.
    rewrite ?bind_emit. cbv beta.
    rewrite (px_columns_ok _ ["book_table"; "rate"]), bind_ret
      by (intros n Hn; apply Hcols; simpl in *; tauto).
    reflexivity.
  - intros v n H. unfold top10, value_counts in H.
    apply In_firstn, sort_In, frequencies_In in H.
    cbn [values] in H. destruct H as [Hn [Hin ->]].
    pose proof Hin as Hin'. apply filter_In in Hin' as [Hl Hm].
    split; [now apply member_In|]. split.
    + now apply count_filter_member.
    + now apply count_pos.
Qed.

(** The bars of the six-restaurant table under the selection [C; A]. *)
Lemma bivariate_after_selection_witness :
  let loc := mkSeries object
               [Str "A"; Str "A"; Str "B"; Str "C"; Str "C"; Str "C"] in
  getitem Sample.six "location" = Ok loc
  /\ (forall n, In n ["cost"; "rate"; "online_order"; "book_table"] ->
                has_column Sample.six n = true)
  /\ exists view vloc,
       df_filtered Sample.six [Str "C"; Str "A"] = Ok view
       /\ getitem view "location" = Ok vloc
       /\ bivariate view
          = ([Decor "header"; Decor "tabs"; Decor "price heading";
              Scatter view; Decor "locations heading"; Bar (top10 vloc);
              Decor "booking heading"; Box view],
             Ok tt)
       /\ forall v n, In (v, n) (top10 vloc) ->
                      In v [Str "C"; Str "A"]
                      /\ n = count v (values loc) /\ 0 < n.
Proof.
  intro loc.
  assert (H1 : getitem Sample.six "location" = Ok loc) by reflexivity.
  assert (H2 : forall n, In n ["cost"; "rate"; "online_order"; "book_table"] ->
                         has_column Sample.six n = true).
  { intros n [<-|[<-|[<-|[<-|[]]]]]; reflexivity. }
  split; [exact H1|]. split; [exact H2|].
  apply (bivariate_after_selection Sample.six loc [Str "C"; Str "A"] H1);
    [discriminate | exact H2].
Defined.

End Frequencies.

(* ================================================================= *)
(** ** The mean of a column *)

Section MeanBounds.
Import Pandas App Spec.

Open Scope Qc_scope.

(** *** Rounding between whole numbers *)

Lemma round_half_even_lower (a b L : Z) :
  (0 < b)%Z -> (L * b <= a)%Z -> (L <= round_half_even a b)%Z.
Proof.
  intros Hb H. unfold round_half_even.
  assert (Hq : (L <= a / b)%Z) by (apply Z.div_le_lower_bound; lia).
  destruct (2 * (a mod b) ?= b)%Z; [destruct (Z.even (a / b))| |]; lia.
Qed.

Lemma round_half_even_upper (a b H : Z) :
  (0 < b)%Z -> (a <= H * b)%Z -> (round_half_even a b <= H)%Z.
Proof.
  intros Hb Ha. unfold round_half_even.
  pose proof (Z.div_mod a b ltac:(lia)) as Hdm.
  pose proof (Z.mod_pos_bound a b Hb) as Hm.
  destruct (Z.eq_dec (a mod b) 0) as [E|E].
  - rewrite E. replace (2 * 0 ?= b)%Z with Lt
      by (symmetry; apply Z.compare_lt_iff; lia).
    nia.
  - assert (Hq : (a / b < H)%Z) by nia.
    destruct (2 * (a mod b) ?= b)%Z; [destruct (Z.even (a / b))| |]; lia.
Qed.

Lemma binary_exponent_upper (a b : Z) :
  (0 < a)%Z -> (0 < b)%Z -> (a < 2 ^ 53 * b)%Z -> (binary_exponent a b <= 52)%Z.
Proof.
  intros Ha Hb Hlt. unfold binary_exponent.
  destruct (Z.log2_spec a Ha) as [La1 La2].
  destruct (Z.log2_spec b Hb) as [Lb1 Lb2].
  pose proof (Z.log2_nonneg a) as Na. pose proof (Z.log2_nonneg b) as Nb.
  set (la := Z.log2 a) in *. set (lb := Z.log2 b) in *.
  destruct (0 <=? la - lb)%Z eqn:E0.
  - apply Z.leb_le in E0.
    destruct (b * 2 ^ (la - lb) <=? a)%Z eqn:E1.
    + apply Z.leb_le in E1.
      destruct (Z_le_gt_dec (la - lb) 52) as [|G]; [assumption|exfalso].
      assert (P : (2 ^ 53 <= 2 ^ (la - lb))%Z)
        by (apply Z.pow_le_mono_r; lia).
      nia.
    + destruct (Z_le_gt_dec (la - lb - 1) 52) as [|G]; [assumption|exfalso].
      assert (P : (2 ^ 53 <= 2 ^ (la - lb - 1))%Z)
        by (apply Z.pow_le_mono_r; lia).
      assert (Q : (2 ^ la = 2 ^ (la - lb - 1) * 2 ^ (lb + 1))%Z).
      { rewrite <- Z.pow_add_r by lia. f_equal. lia. }
      replace (Z.succ lb) with (lb + 1)%Z in Lb2 by lia.
      nia.
  - apply Z.leb_gt in E0.
    destruct (b <=? a * 2 ^ (- (la - lb)))%Z; lia.
Qed.

Lemma float64_pos_between (a b L H : Z) :
  (0 < a)%Z -> (0 < b)%Z -> (H < 2 ^ 53)%Z ->
  (L * b <= a)%Z -> (a <= H * b)%Z ->
  exists v, float64_pos a b = Some v
            /\ (inject_Z L <= v)%Q /\ (v <= inject_Z H)%Q.
Proof.
  intros Ha Hb HH HL HU. unfold float64_pos.
  assert (He : (binary_exponent a b <= 52)%Z)
    by (apply binary_exponent_upper; nia).
  set (k := (Z.max (binary_exponent a b) (-1022) - 52)%Z).
  assert (Hk : (k <= 0)%Z) by (unfold k; lia).
  destruct (0 <=? k)%Z eqn:Ek.
  - apply Z.leb_le in Ek. assert (E : k = 0%Z) by lia. rewrite E.
    rewrite Z.pow_0_r, !Z.mul_1_r.
    pose proof (round_half_even_lower a b L Hb HL) as Hl.
    pose proof (round_half_even_upper a b H Hb HU) as Hu.
    assert (P : (2 ^ 53 < 2 ^ 1024)%Z) by (apply Z.pow_lt_mono_r; lia).
    destruct (2 ^ 1024 <=? round_half_even a b)%Z eqn:Eo.
    + apply Z.leb_le in Eo. lia.
    + eexists. split; [reflexivity|].
      unfold Qle, inject_Z. cbn [Qnum Qden]. lia.
  - assert (Hp : (0 < 2 ^ (- k))%Z) by (apply Z.pow_pos_nonneg; lia).
    eexists. split; [reflexivity|].
    unfold Qle, inject_Z. cbn [Qnum Qden]. rewrite Z2Pos.id by exact Hp.
    rewrite !Z.mul_1_r. split.
    + apply round_half_even_lower; [exact Hb | nia].
    + apply round_half_even_upper; [exact Hb | nia].
Qed.

Lemma Qc_of_nat_le (n : nat) (q : Qc) :
  (Qc_of_nat n <= q)%Qc <-> (Z.of_nat n * Zpos (Qden q) <= Qnum q)%Z.
Proof.
  unfold Qcle, Qc_of_nat, Q2Qc. cbn [this]. rewrite Qred_correct.
  unfold Qle, inject_Z. cbn [Qnum Qden]. lia.
Qed.

Lemma Qc_of_nat_ge (n : nat) (q : Qc) :
  (q <= Qc_of_nat n)%Qc <-> (Qnum q <= Z.of_nat n * Zpos (Qden q))%Z.
Proof.
  unfold Qcle, Qc_of_nat, Q2Qc. cbn [this]. rewrite Qred_correct.
  unfold Qle, inject_Z. cbn [Qnum Qden]. lia.
Qed.

Lemma nearest_float64_between (q : Qc) (lo hi : nat) :
  (Z.of_nat hi < 2 ^ 53)%Z ->
  (Qc_of_nat lo <= q)%Qc -> (q <= Qc_of_nat hi)%Qc ->
  exists m, nearest_float64 q = Some m
            /\ (Qc_of_nat lo <= m)%Qc /\ (m <= Qc_of_nat hi)%Qc.
Proof.
  intros Hh Hl Hu. apply Qc_of_nat_le in Hl. apply Qc_of_nat_ge in Hu.
  unfold nearest_float64. destruct (Qnum q) as [|a|a] eqn:Ea.
  - exists (Q2Qc 0). split; [reflexivity|].
    split; [apply Qc_of_nat_le | apply Qc_of_nat_ge]; simpl; lia.
  - destruct (float64_pos_between (Zpos a) (Zpos (Qden q))
                (Z.of_nat lo) (Z.of_nat hi)) as (v & -> & Hv1 & Hv2);
      try lia.
    exists (Q2Qc (Qred v)). split; [reflexivity|].
    unfold Qcle, Qc_of_nat, Q2Qc. cbn [this]. rewrite !Qred_correct.
    now split.
  - lia.
Qed.


(** *** The quotient of the mean *)

Lemma Qc_of_nat_S (n : nat) : Qc_of_nat (S n) = Qc_of_nat n + 1.
Proof.
  apply Qc_is_canon. unfold Qc_of_nat, Qcplus, Q2Qc. cbn [this].
  rewrite !Qred_correct, Nat2Z.inj_succ. unfold Z.succ.
  rewrite inject_Z_plus. reflexivity.
Qed.

Lemma Qc_of_nat_pos (n : nat) : 0 < Qc_of_nat (S n).
Proof.
  unfold Qclt, Qc_of_nat, Q2Qc. cbn [this]. rewrite !Qred_correct.
  unfold Qlt. simpl. lia.
Qed.

Lemma Qc_sum_bounds (lo hi : Qc) (xs : list Qc) :
  (forall q, In q xs -> lo <= q /\ q <= hi) ->
  lo * Qc_of_nat (List.length xs) <= Qc_sum xs
  /\ Qc_sum xs <= hi * Qc_of_nat (List.length xs).
Proof.
  induction xs as [|x xs IH]; intro H.
  - unfold Qc_sum, Qc_of_nat. cbn [fold_right List.length Z.of_nat].
    change (Q2Qc (inject_Z 0)) with (Q2Qc 0). fold (Q2Qc 0).
    rewrite !Qcmult_0_r. split; apply Qcle_refl.
  - destruct IH as [IH1 IH2]; [intros q Hq; apply H; now right|].
    destruct (H x (or_introl eq_refl)) as [Hx1 Hx2].
    cbn [List.length]. rewrite Qc_of_nat_S.
    unfold Qc_sum in *. cbn [fold_right].
    rewrite !Qcmult_plus_distr_r, !Qcmult_1_r.
    rewrite (Qcplus_comm (lo * _) lo), (Qcplus_comm (hi * _) hi).
    split; now apply Qcplus_le_compat.
Qed.

Lemma quotient_bounds (lo hi : Qc) (xs : list Qc) :
  xs <> [] ->
  (forall q, In q xs -> lo <= q /\ q <= hi) ->
  lo <= Qc_sum xs / Qc_of_nat (List.length xs)
  /\ Qc_sum xs / Qc_of_nat (List.length xs) <= hi.
Proof.
  intros Hn Hb. destruct xs as [|x xs]; [contradiction|].
  destruct (Qc_sum_bounds lo hi (x :: xs) Hb) as [B1 B2].
  pose proof (Qc_of_nat_pos (List.length xs)) as Hp.
  cbn [List.length] in *.
  assert (Hnz : Qc_of_nat (S (List.length xs)) <> 0).
  { intro E. rewrite E in Hp. now apply (Qclt_not_eq 0 0). }
  assert (Hm : Qc_sum (x :: xs) / Qc_of_nat (S (List.length xs))
               * Qc_of_nat (S (List.length xs))
               = Qc_sum (x :: xs)).
  { rewrite Qcmult_comm. now apply Qcmult_div_r. }
  split; apply Qcmult_lt_0_le_reg_r with (z := Qc_of_nat (S (List.length xs)));
    try exact Hp; now rewrite Hm.
Qed.

(** X9. The mean of a column: text in the column is a type error; without
    text and without a number the mean is the missing value; missing
    cells are left out.  For whole numbers with a total below 2 ^ 53 the
    mean is the float64 nearest to their total over their number, and it
    lies between any two whole numbers below 2 ^ 53 that bound them, the
    least and the greatest of the column in particular. *)
Theorem mean_cases_and_bounds (l : list cell) :
  (existsb is_str l = true -> mean l = Raise TypeError)
  /\ (existsb is_str l = false -> numbers l = [] -> mean l = Ok NaN)
  /\ (forall lo hi : nat,
         existsb is_str l = false ->
         numbers l <> [] ->
         whole_numbers l ->
         (Z.of_nat hi < 2 ^ 53)%Z ->
         (forall q, In (Num q) l -> Qc_of_nat lo <= q /\ q <= Qc_of_nat hi) ->
         exists m,
           mean l = Ok (Num m)
           /\ nearest_float64
                (total_of (numbers l) / Qc_of_nat (List.length (numbers l)))
              = Some m
           /\ Qc_of_nat lo <= m /\ m <= Qc_of_nat hi)
  /\ mean (dropna l) = mean l.
Proof.
  split; [|split; [|split]].
  - intro H. unfold mean. now rewrite H.
  - intros H Hn. unfold mean. now rewrite H, Hn.
  - intros lo hi H Hn _ Hh Hb. unfold mean. rewrite H, total_of_sum.
    destruct (quotient_bounds (Qc_of_nat lo) (Qc_of_nat hi) (numbers l) Hn)
      as [B1 B2].
    { intros q Hq. apply Hb. now apply numbers_In. }
    destruct (nearest_float64_between _ lo hi Hh B1 B2) as (m & Em & M1 & M2).
    exists m. destruct (numbers l) as [|x xs] eqn:En; [contradiction|].
    cbn [as_float64]. rewrite Em. repeat split; assumption.
  - unfold mean, dropna.
    assert (Hs : existsb is_str (filter (fun c => negb (is_nan c)) l)
                 = existsb is_str l).
    { clear. induction l as [|c l IH]; [reflexivity|].
      destruct c; simpl; now rewrite ?IH. }
    assert (Hn : numbers (filter (fun c => negb (is_nan c)) l) = numbers l).
    { clear. induction l as [|c l IH]; [reflexivity|].
      destruct c; simpl; now rewrite ?IH. }
    now rewrite Hs, Hn.
Qed.

(** Costs 100, 100 and 200, one cell missing: the mean is the float64 of
    400 / 3, between 100 and 200. *)
Lemma mean_cases_and_bounds_witness :
  let l := [Sample.num 100; Sample.num 100; NaN; Sample.num 200] in
  existsb is_str l = false
  /\ numbers l <> []
  /\ whole_numbers l
  /\ exists m, mean l = Ok (Num m)
               /\ m = Q2Qc (4691249611844267 # 35184372088832)
               /\ Q2Qc (inject_Z 100) <= m /\ m <= Q2Qc (inject_Z 200).
Proof.
  intro l.
  assert (H1 : existsb is_str l = false) by reflexivity.
  assert (H2 : numbers l <> []) by discriminate.
  assert (H3 : whole_numbers l).
  { split.
    - intros q Hq. simpl in Hq.
      destruct Hq as [<-|[<-|[<-|[]]]];
        [exists 100%nat | exists 100%nat | exists 200%nat]; reflexivity.
    - vm_compute. reflexivity. }
  split; [exact H1|]. split; [exact H2|]. split; [exact H3|].
  destruct (proj1 (proj2 (proj2 (mean_cases_and_bounds l)))
              100%nat 200%nat H1 H2 H3) as (m & Hm & Em & M1 & M2).
  - vm_compute. reflexivity.
  - intros q [E|[E|[E|[E|[]]]]]; try discriminate;
      injection E as <-; split; vm_compute; discriminate.
  - exists m. split; [exact Hm|]. split; [|split; assumption].
    vm_compute in Em. injection Em as <-. vm_compute. reflexivity.
Defined.

End MeanBounds.

(* ================================================================= *)
(** ** The numeric columns and the shape of the matrix *)

Section NumericColumns.
Import Pandas App Spec.

Lemma position_keep (keepf : string * dtype -> bool) (name : string)
      (cols : list (string * dtype)) :
  forall (i : nat) (dt : dtype),
    position name cols = Some (i, dt) ->
    keepf (name, dt) = true ->
    exists i',
      position name (select (map keepf cols) cols) = Some (i', dt)
      /\ forall cs, nth i' (select (map keepf cols) cs) NaN = nth i cs NaN.
Proof.
  induction cols as [|[n d] cols IH]; intros i dt Hp Hk; [discriminate|].
  cbn [position map select] in *.
  destruct (String.eqb n name) eqn:En.
  - injection Hp as <- <-. apply String.eqb_eq in En. subst n.
    rewrite Hk. cbn [position]. rewrite String.eqb_refl.
    exists 0. split; [reflexivity|]. intros [|c cs]; reflexivity.
  - destruct (position name cols) as [[i0 dt0]|]; [|discriminate].
    injection Hp as <- <-.
    destruct (IH i0 dt0 eq_refl Hk) as [i' [Hp' Hn]].
    destruct (keepf (n, d)).
    + cbn [position]. rewrite En, Hp'. exists (S i').
      split; [reflexivity|].
      intros [|c cs]; cbn [select nth]; [reflexivity | apply Hn].
    + exists i'. split; [exact Hp'|].
      intros [|c cs]; cbn [select nth]; [now destruct i' | apply Hn].
Qed.

Lemma position_In (name : string) (cols : list (string * dtype)) :
  forall (i : nat) (dt : dtype),
    position name cols = Some (i, dt) -> In (name, dt) cols.
Proof.
  induction cols as [|[n d] cols IH]; intros i dt Hp; [discriminate|].
  cbn [position] in Hp. destruct (String.eqb n name) eqn:En.
  - injection Hp as <- <-. apply String.eqb_eq in En. subst n. now left.
  - destruct (position name cols) as [[i0 dt0]|]; [|discriminate].
    injection Hp as <- <-. right. now apply (IH i0).
Qed.

Lemma numeric_dtype (dt : dtype) :
  existsb (dtype_eqb dt) [float64; int64] = true
  <-> dt = float64 \/ dt = int64.
Proof. destruct dt; simpl; split; intro H; try tauto; try discriminate;
         destruct H; discriminate. Qed.

(** X11. The matrix of the heatmap is square, with one row and one column
    for each column of the view whose scalar type is float64 or int64 (the
    NumPy storage types and the nullable ones alike), labelled by their
    names in the order of the view; such a column enters the matrix with
    the cells it has in the view, and no column of another scalar type
    does. *)
Theorem heatmap_shape (view : DataFrame) :
  let numeric := fun c : string * dtype =>
                   existsb (dtype_eqb (snd c)) [float64; int64] in
  let K := List.length (filter numeric (columns view)) in
  columns (numeric_df view) = filter numeric (columns view)
  /\ labels (heatmap_matrix view) = map fst (filter numeric (columns view))
  /\ List.length (entries (heatmap_matrix view)) = K
  /\ (forall row, In row (entries (heatmap_matrix view)) ->
                  List.length row = K)
  /\ (forall i j, entry (heatmap_matrix view) i j <> None <-> i < K /\ j < K)
  /\ (forall name s,
         getitem view name = Ok s ->
         sdtype s = float64 \/ sdtype s = int64 ->
         getitem (numeric_df view) name = Ok s)
  /\ (forall name s,
         getitem (numeric_df view) name = Ok s ->
         sdtype s = float64 \/ sdtype s = int64).
Proof.
  intros numeric K.
  assert (Hcols : columns (numeric_df view) = filter numeric (columns view)).
  { unfold numeric_df, select_dtypes, keep_columns. cbn [columns].
    apply (select_map _ numeric). }
  split; [exact Hcols|].
  unfold heatmap_matrix, corr. cbn [labels entries]. rewrite Hcols. fold K.
  split; [reflexivity|].
  split; [now rewrite length_map, length_seq|].
  split.
  { intros row Hr. apply in_map_iff in Hr as [i [<- _]].
    now rewrite length_map, length_seq. }
  split.
  { intros i j.
    pose proof (entry_corr (numeric_df view) i j) as He.
    unfold corr in He. rewrite Hcols in He. fold K in He. rewrite He.
    destruct (i <? K) eqn:Ei, (j <? K) eqn:Ej; cbn [andb];
      rewrite ?Nat.ltb_lt, ?Nat.ltb_ge in *; split;
      try discriminate; try lia; try congruence; intros; lia. }
  split.
  - intros name s Hs Hd.
    destruct (position_getitem view name s Hs) as [i [Hi Hv]].
    destruct (position_keep numeric name (columns view) i (sdtype s) Hi)
      as [i' [Hp Hn]]; [now apply numeric_dtype|].
    unfold getitem, numeric_df, select_dtypes, keep_columns.
    cbn [columns rows]. fold numeric. rewrite Hp. destruct s as [dt vs].
    cbn [sdtype values] in *. f_equal. f_equal. rewrite Hv, map_map.
    apply map_ext. intro r. unfold cell_at. cbn [cells]. apply Hn.
  - intros name s Hs.
    destruct (position_getitem _ name s Hs) as [i [Hi _]].
    rewrite Hcols in Hi. apply position_In, filter_In in Hi as [_ Hi].
    now apply numeric_dtype.
Qed.

End NumericColumns.

Section ShapeExample.
Import Pandas App Spec.

(** The rating column of the three-restaurant table is numeric, the
    location column is not. *)
Lemma heatmap_shape_witness :
  let s := mkSeries float64 [Sample.num 4; Sample.num 3; Sample.num 5] in
  getitem Sample.three "rate" = Ok s
  /\ (sdtype s = float64 \/ sdtype s = int64)
  /\ getitem (Spec.numeric_df Sample.three) "rate" = Ok s
  /\ Pandas.labels (Spec.heatmap_matrix Sample.three) = ["rate"; "cost"]
  /\ getitem (Spec.numeric_df Sample.three) "location"
     = Raise (KeyError "location").
Proof.
  intro s.
  assert (H1 : getitem Sample.three "rate" = Ok s) by reflexivity.
  assert (H2 : sdtype s = float64 \/ sdtype s = int64) by now left.
  split; [exact H1|]. split; [exact H2|]. split.
  - destruct (heatmap_shape Sample.three) as (_ & _ & _ & _ & _ & H & _).
    exact (H "rate" s H1 H2).
  - split; reflexivity.
Defined.

End ShapeExample.

(* ================================================================= *)
(** ** The home page *)

Section HomePage.
Import Pandas App Spec.

Lemma length_filter_map (A B : Type) (f : A -> B) (p : B -> bool) (l : list A) :
  List.length (filter p (map f l)) = List.length (filter (fun x => p (f x)) l).
Proof.
  induction l as [|x l IH]; simpl; [reflexivity|].
  destruct (p (f x)); simpl; now rewrite IH.
Qed.

(** The number of rows whose online-order cell reads Yes. *)
Lemma online_count (view : DataFrame) (o : Series) :
  getitem view "online_order" = Ok o ->
  nrows (getitem_mask view (isin o [Str "Yes"])) = count (Str "Yes") (values o).
Proof.
  intro Ho. destruct (position_getitem view "online_order" o Ho) as [i [_ Hv]].
  unfold nrows, getitem_mask, isin, count. cbn [rows]. rewrite Hv.
  rewrite select_map_map, length_filter_map. f_equal.
  apply filter_ext. intro r. unfold member. cbn [existsb].
  rewrite orb_false_r. apply cell_eqb_sym.
Qed.

(** The home page of a view with the three columns it reads. *)
Lemma home_page (view : DataFrame) (rate cst o : Series) (mr mc : cell) :
  getitem view "rate" = Ok rate ->
  getitem view "cost" = Ok cst ->
  getitem view "online_order" = Ok o ->
  mean (values rate) = Ok mr ->
  mean (values cst) = Ok mc ->
  home view
  = ([Decor "header"; Decor "banner"; Decor "kpi heading";
      Metric "Total Restaurants" (nat_cell (nrows view));
      Metric "Avg Rating" mr;
      Metric "Avg Cost (2 People)" mc;
      Metric "Online Delivery" (nat_cell (count (Str "Yes") (values o)));
      Decor "rule"; Decor "preview heading"; Preview (head 100 view)],
     Ok tt).
Proof.
  intros Hr Hc Ho Hmr Hmc. unfold home.
  rewrite ?bind_emit. cbv beta. rewrite Hr, bind_lift_ok, Hmr, bind_lift_ok.
  rewrite ?bind_emit. cbv beta. rewrite Hc, bind_lift_ok, Hmc, bind_lift_ok.
  rewrite ?bind_emit. cbv beta. rewrite Ho, bind_lift_ok.
  rewrite ?bind_emit. cbv beta. rewrite (online_count view o Ho).
  reflexivity.
Qed.



End HomePage.

(* ================================================================= *)
(** ** The multivariate page *)

Section MultivariatePage.
Import Pandas App Spec.

(** The table of the treemap is computed, and its locations are among the
    top ten. *)
Lemma treemap_df_ok (view : DataFrame) (loc ty cst : Series) :
  getitem view "location" = Ok loc ->
  getitem view "rest_type" = Ok ty ->
  getitem view "cost" = Ok cst ->
  existsb is_str (values cst) = false ->
  exists t,
    treemap_df view = Ok t
    /\ columns t
       = [("location", sdtype loc); ("rest_type", sdtype ty); ("cost", float64)]
    /\ forall r, In r (rows t) -> In (cell_at 0 r) (map fst (top10 loc)).
Proof.
  intros Hloc Hty Hcst Hnum.
  destruct (position_getitem view "location" loc Hloc) as [i [Hi Hvi]].
  destruct (position_getitem view "rest_type" ty Hty) as [j [Hj Hvj]].
  destruct (position_getitem view "cost" cst Hcst) as [c [Hc Hvc]].
  destruct (group_means_rows i j c (rows view) (group_keys i j (rows view)) 0)
    as [out [Hout _]].
  { intros k Hk. apply mean_ok.
    apply existsb_false_incl with (l := values cst); [exact Hnum|].
    rewrite Hvc. intros x Hx. apply in_map_iff in Hx as [r [<- Hr]].
    apply in_map. unfold group_rows in Hr. apply filter_In in Hr. tauto. }
  eexists. split.
  - unfold treemap_df, groupby_mean. rewrite Hi, Hj, Hc, Hout, Hloc.
    unfold getitem. cbn [columns position String.eqb Ascii.eqb Bool.eqb].
    unfold getitem_mask, isin. cbn [values rows columns].
    rewrite select_map_map. reflexivity.
  - cbn [columns rows]. split; [reflexivity|].
    intros r Hr. apply filter_In in Hr as [_ Hr]. now apply member_In.
Qed.

Lemma multivariate_treemap (view t : DataFrame) (d1 d2 : dtype) :
  empty view = false ->
  treemap_df view = Ok t ->
  columns t = [("location", d1); ("rest_type", d2); ("cost", float64)] ->
  multivariate view
  = ([Decor "header"; Decor "heatmap heading"; Heatmap (heatmap_matrix view);
      Decor "treemap heading"; Treemap t],
     Ok tt).
Proof.
  intros He Ht Hc. unfold multivariate.
  rewrite ?bind_emit. cbv beta. rewrite He. cbn [negb].
  rewrite Ht, bind_lift_ok.
  rewrite (px_columns_ok t ["location"; "rest_type"; "cost"]), bind_ret.
  - reflexivity.
  - intros n Hn. unfold has_column. rewrite Hc.
    simpl in Hn. destruct Hn as [<-|[<-|[<-|[]]]]; reflexivity.
Qed.

Lemma filter_drops_all (A : Type) (p : A -> bool) (l : list A) :
  (forall x, In x l -> p x = false) -> filter p l = [].
Proof.
  induction l as [|x l IH]; intro H; simpl; [reflexivity|].
  rewrite (H x) by now left. apply IH. intros y Hy. apply H. now right.
Qed.

Lemma multivariate_warning (view : DataFrame) :
  empty view = true ->
  multivariate view
  = ([Decor "header"; Decor "heatmap heading"; Heatmap (heatmap_matrix view);
      Decor "treemap heading"; WarningBox select_warning],
     Ok tt).
Proof.
  intro He. unfold multivariate.
  rewrite ?bind_emit. cbv beta. rewrite He. reflexivity.
Qed.

(** X13. The treemap of a view that is not empty, with location, type
    and cost columns and no text in the cost: the multivariate page ends
    normally with the heatmap and the treemap, without warning, and the
    treemap shows ten distinct locations at most, all among the ten most
    frequent of the view. *)
Theorem treemap_locations (view : DataFrame) (loc ty cst : Series) :
  empty view = false ->
  getitem view "location" = Ok loc ->
  getitem view "rest_type" = Ok ty ->
  getitem view "cost" = Ok cst ->
  existsb is_str (values cst) = false ->
  exists t tloc,
    treemap_df view = Ok t
    /\ multivariate view
       = ([Decor "header"; Decor "heatmap heading";
           Heatmap (heatmap_matrix view); Decor "treemap heading";
           Treemap t],
          Ok tt)
    /\ getitem t "location" = Ok tloc
    /\ incl (values tloc) (map fst (top10 loc))
    /\ List.length (unique (values tloc)) <= 10.
Proof.
  intros He Hloc Hty Hcst Hnum.
  destruct (treemap_df_ok view loc ty cst Hloc Hty Hcst Hnum)
    as [t [Ht [Hc Hin]]].
  exists t, (mkSeries (sdtype loc) (map (cell_at 0) (rows t))).
  split; [exact Ht|].
  split; [now apply multivariate_treemap with (d1 := sdtype loc)
                                               (d2 := sdtype ty)|].
  split; [unfold getitem; rewrite Hc; reflexivity|].
  cbn [values].
  assert (Hincl : incl (map (cell_at 0) (rows t)) (map fst (top10 loc))).
  { intros c Hcin. apply in_map_iff in Hcin as [r [<- Hr]]. now apply Hin. }
  split; [exact Hincl|].
  apply Nat.le_trans with (List.length (map fst (top10 loc))).
  - apply NoDup_incl_length; [apply unique_NoDup|].
    intros c Hcin. apply Hincl. now apply unique_In.
  - rewrite length_map. apply firstn_le_length.
Qed.

(** The treemap of the six-restaurant table. *)
Lemma treemap_locations_witness :
  let loc := mkSeries object
               [Str "A"; Str "A"; Str "B"; Str "C"; Str "C"; Str "C"] in
  let ty := mkSeries object
              [Str "Cafe"; Str "Cafe"; Str "Cafe"; Str "Bar"; Str "Bar";
               Str "Pub"] in
  let cst := mkSeries int64
               [Sample.num 300; Sample.num 500; Sample.num 700;
                Sample.num 200; Sample.num 400; Sample.num 900] in
  empty Sample.six = false
  /\ getitem Sample.six "location" = Ok loc
  /\ getitem Sample.six "rest_type" = Ok ty
  /\ getitem Sample.six "cost" = Ok cst
  /\ existsb is_str (values cst) = false
  /\ exists t tloc,
       treemap_df Sample.six = Ok t
       /\ multivariate Sample.six
          = ([Decor "header"; Decor "heatmap heading";
              Heatmap (heatmap_matrix Sample.six); Decor "treemap heading";
              Treemap t],
             Ok tt)
       /\ getitem t "location" = Ok tloc
       /\ incl (values tloc) (map fst (top10 loc))
       /\ List.length (unique (values tloc)) <= 10.
Proof.
  intros loc ty cst.
  split; [reflexivity|]. split; [reflexivity|]. split; [reflexivity|].
  split; [reflexivity|]. split; [reflexivity|].
  apply (treemap_locations Sample.six loc ty cst); reflexivity.
Defined.

(** X14. A selection none of whose values is a location of the dataset:
    the view has the columns of the dataset and no row; the multivariate
    page still draws the heatmap, every cell of which is undefined, shows
    the warning in place of the treemap, and ends normally. *)
Theorem unmatched_selection (env : Env) (df : DataFrame) (loc : Series) :
  load_data env = Ok df ->
  empty df = false ->
  getitem df "location" = Ok loc ->
  selected_location env <> [] ->
  (forall c, In c (selected_location env) -> ~ In c (values loc)) ->
  page env = Multivariate ->
  let view := mkDF (columns df) [] in
  df_filtered df (selected_location env) = Ok view
  /\ run env
     = ([Decor "page config"; Decor "style sheet"; Decor "logo"; Decor "rule";
         Radio; Decor "rule"; Decor "filter heading";
         MultiSelect (unique (values loc)) (firstn 5 (unique (values loc)));
         Decor "header"; Decor "heatmap heading";
         Heatmap (heatmap_matrix view); Decor "treemap heading";
         WarningBox select_warning],
        Ok tt)
  /\ forall i j x, entry (heatmap_matrix view) i j = Some x -> x = None.
Proof.
  intros Hl He Hloc Hsel Hno Hpage view.
  assert (Hv : df_filtered df (selected_location env) = Ok view).
  { rewrite (df_filtered_rows df loc _ Hloc Hsel). unfold view. do 2 f_equal.
    destruct (position_getitem df "location" loc Hloc) as [i [Hi Hval]].
    assert (Hnone : forall r, In r (rows df) ->
              member (location_of df r) (selected_location env) = false).
    { intros r Hr.
      destruct (member (location_of df r) (selected_location env)) eqn:E;
        [|reflexivity].
      apply member_In in E. exfalso. apply (Hno _ E).
      rewrite Hval. unfold location_of, field. rewrite Hi. now apply in_map. }
    now apply filter_drops_all. }
  split; [exact Hv|]. split.
  - rewrite (run_pages env df view loc Hl He Hloc Hv), Hpage.
    rewrite (multivariate_warning view) by reflexivity. reflexivity.
  - intros i j x Hx.
    unfold heatmap_matrix in Hx. rewrite entry_corr in Hx.
    destruct (i <? List.length (columns (numeric_df view))) eqn:Ei;
      [|discriminate].
    destruct (j <? List.length (columns (numeric_df view))) eqn:Ej;
      [|discriminate].
    apply Nat.ltb_lt in Ei, Ej.
    assert (Hn : entry (heatmap_matrix view) i j = Some None).
    { apply heatmap_entry_single_row; try assumption.
      unfold view, nrows. simpl. lia. }
    unfold heatmap_matrix in Hn. rewrite entry_corr in Hn.
    apply Nat.ltb_lt in Ei, Ej. rewrite Ei, Ej in Hn. cbn [andb] in *.
    congruence.
Qed.

(** The three-restaurant table with a location it does not hold. *)
Lemma unmatched_selection_witness :
  let env := Sample.env_of Sample.three Multivariate [Str "Z"] cost in
  let loc := mkSeries object [Str "A"; Str "A"; Str "B"] in
  load_data env = Ok Sample.three
  /\ (forall c, In c (selected_location env) -> ~ In c (values loc))
  /\ df_filtered Sample.three (selected_location env)
     = Ok (mkDF (columns Sample.three) [])
  /\ outcome (run env) = Ok tt
  /\ In (WarningBox select_warning) (output (run env)).
Proof.
  intros env loc.
  assert (H1 : load_data env = Ok Sample.three) by reflexivity.
  assert (H2 : forall c, In c (selected_location env) -> ~ In c (values loc)).
  { intros c Hc H. unfold env in Hc. simpl in Hc, H.
    destruct Hc as [<-|[]]. destruct H as [E|[E|[E|[]]]]; discriminate. }
  split; [exact H1|]. split; [exact H2|].
  destruct (unmatched_selection env Sample.three loc H1)
    as (Hv & Hr & _); try reflexivity; try discriminate; try exact H2.
  split; [exact Hv|]. rewrite Hr. split; [reflexivity|].
  simpl. tauto.
Defined.

End MultivariatePage.

(* ================================================================= *)
(** ** A pass over a well-formed dataset *)

Section WholePass.
Import Pandas App Spec.

Lemma view_columns (df : DataFrame) (loc : Series) (sel : list cell) :
  getitem df "location" = Ok loc ->
  exists view,
    df_filtered df sel = Ok view
    /\ columns view = columns df
    /\ incl (rows view) (rows df).
Proof.
  intro Hloc. destruct sel as [|c sel].
  - exists df. split; [|split; [reflexivity | apply incl_refl]].
    unfold df_filtered. cbn [truthy]. now rewrite copy_id.
  - eexists. split; [apply (df_filtered_rows df loc (c :: sel) Hloc);
                     discriminate|].
    cbn [columns rows]. split; [reflexivity|].
    intros r Hr. now apply filter_In in Hr.
Qed.

Lemma getitem_view (df view : DataFrame) (name : string) (s : Series) :
  columns view = columns df ->
  incl (rows view) (rows df) ->
  getitem df name = Ok s ->
  exists s',
    getitem view name = Ok s'
    /\ sdtype s' = sdtype s
    /\ incl (values s') (values s).
Proof.
  intros Hc Hr Hs.
  destruct (position_getitem df name s Hs) as [i [Hi Hv]].
  eexists. unfold getitem. rewrite Hc, Hi. split; [reflexivity|].
  cbn [sdtype values]. split; [reflexivity|]. rewrite Hv.
  intros x Hx. apply in_map_iff in Hx as [r [<- Hin]].
  apply in_map. now apply Hr.
Qed.

Lemma getitem_has_column (df : DataFrame) (name : string) (s : Series) :
  getitem df name = Ok s -> has_column df name = true.
Proof. intro H. apply has_column_getitem. now exists s. Qed.

Lemma univariate_outcome (view : DataFrame) (c : Choice) (s : Series) :
  getitem view (choice_name c) = Ok s -> outcome (univariate view c) = Ok tt.
Proof.
  intro Hs. unfold univariate. rewrite ?bind_emit. cbv beta.
  rewrite Hs, bind_lift_ok. cbn [outcome snd].
  destruct (chart_is_pie s), (stats_is_describe s);
    rewrite ?bind_emit; reflexivity.
Qed.

Lemma bivariate_outcome (view : DataFrame) (loc : Series) :
  getitem view "location" = Ok loc ->
  (forall n, In n ["cost"; "rate"; "online_order"; "book_table"] ->
             has_column view n = true) ->
  outcome (bivariate view) = Ok tt.
Proof.
  intros Hloc Hcols. unfold bivariate. rewrite ?bind_emit. cbv beta.
  rewrite (px_columns_ok _ ["cost"; "rate"; "online_order"]), bind_ret
    by (intros n Hn; apply Hcols; simpl in *; tauto).
  rewrite ?bind_emit. cbv beta. rewrite Hloc, bind_lift_ok.
  rewrite ?bind_emit. cbv beta.
  rewrite (px_columns_ok _ ["book_table"; "rate"]), bind_ret
    by (intros n Hn; apply Hcols; simpl in *; tauto).
  reflexivity.
Qed.

(** X15. A dataset that is not empty, with the six columns the script
    reads and no text in the rating and the cost: whatever the page, the
    selection and the column chosen, the view has the columns of the
    dataset and the pass ends normally. *)
Theorem pass_ends_normally (env : Env) (df : DataFrame)
        (loc ty rate cst o b : Series) :
  load_data env = Ok df ->
  empty df = false ->
  getitem df "location" = Ok loc ->
  getitem df "rest_type" = Ok ty ->
  getitem df "rate" = Ok rate ->
  getitem df "cost" = Ok cst ->
  getitem df "online_order" = Ok o ->
  getitem df "book_table" = Ok b ->
  existsb is_str (values rate) = false ->
  existsb is_str (values cst) = false ->
  exists view,
    df_filtered df (selected_location env) = Ok view
    /\ columns view = columns df
    /\ outcome (run env) = Ok tt.
Proof.
  intros Hl He Hloc Hty Hrate Hcst Ho Hb Sr Sc.
  destruct (view_columns df loc (selected_location env) Hloc)
    as [view [Hv [Hc Hr]]].
  exists view. split; [exact Hv|]. split; [exact Hc|].
  rewrite (run_pages env df view loc Hl He Hloc Hv). cbn [outcome snd].
  destruct (getitem_view df view _ _ Hc Hr Hloc) as [vloc [Vloc _]].
  destruct (getitem_view df view _ _ Hc Hr Hty) as [vty [Vty _]].
  destruct (getitem_view df view _ _ Hc Hr Hrate) as [vrate [Vrate [_ Ir]]].
  destruct (getitem_view df view _ _ Hc Hr Hcst) as [vcst [Vcst [_ Ic]]].
  destruct (getitem_view df view _ _ Hc Hr Ho) as [vo [Vo _]].
  destruct (getitem_view df view _ _ Hc Hr Hb) as [vb [Vb _]].
  pose proof (existsb_false_incl _ is_str _ _ Sr Ir) as Sr'.
  pose proof (existsb_false_incl _ is_str _ _ Sc Ic) as Sc'.
  destruct (page env).
  - destruct (mean_ok _ Sr') as [mr Hmr]. destruct (mean_ok _ Sc') as [mc Hmc].
    now rewrite (home_page view vrate vcst vo mr mc Vrate Vcst Vo Hmr Hmc).
  - destruct (col_to_plot env);
      [ apply univariate_outcome with (s := vrate)
      | apply univariate_outcome with (s := vcst)
      | apply univariate_outcome with (s := vo)
      | apply univariate_outcome with (s := vb)
      | apply univariate_outcome with (s := vty) ]; assumption.
  - apply bivariate_outcome with (loc := vloc); [exact Vloc|].
    intros n Hn. simpl in Hn.
    destruct Hn as [<-|[<-|[<-|[<-|[]]]]];
      eapply getitem_has_column; eassumption.
  - destruct (empty view) eqn:Ev.
    + now rewrite (multivariate_warning view Ev).
    + destruct (treemap_df_ok view vloc vty vcst Vloc Vty Vcst Sc')
        as [t [Ht [Hct _]]].
      now rewrite (multivariate_treemap view t _ _ Ev Ht Hct).
Qed.

(** The treemap page of the six-restaurant table, two locations chosen. *)
Lemma pass_ends_normally_witness :
  let env := Sample.env_of Sample.six Multivariate [Str "C"; Str "B"] rate in
  exists view,
    df_filtered Sample.six (selected_location env) = Ok view
    /\ columns view = columns Sample.six
    /\ outcome (run env) = Ok tt.
Proof.
  intro env.
  apply (pass_ends_normally env Sample.six
           (mkSeries object
              [Str "A"; Str "A"; Str "B"; Str "C"; Str "C"; Str "C"])
           (mkSeries object
              [Str "Cafe"; Str "Cafe"; Str "Cafe"; Str "Bar"; Str "Bar";
               Str "Pub"])
           (mkSeries float64
              [Sample.num 4; Sample.num 3; Sample.num 5; Sample.num 4;
               Sample.num 2; Sample.num 3])
           (mkSeries int64
              [Sample.num 300; Sample.num 500; Sample.num 700;
               Sample.num 200; Sample.num 400; Sample.num 900])
           (mkSeries object
              [Str "Yes"; Str "No"; Str "Yes"; Str "Yes"; Str "No";
               Str "Yes"])
           (mkSeries object
              [Str "No"; Str "Yes"; Str "No"; Str "No"; Str "No";
               Str "Yes"]));
    reflexivity.
Defined.

End WholePass.

(* ================================================================= *)
(** ** Growing the selection, and the bars against the rows *)

Section SelectionGrowth.
Import Pandas App Spec.

Lemma filter_weaker_subsequence (A : Type) (p q : A -> bool) (l : list A) :
  (forall x, In x l -> p x = true -> q x = true) ->
  subsequence (filter p l) (filter q l).
Proof.
  induction l as [|x l IH]; intro H; simpl; [constructor|].
  assert (IH' : subsequence (filter p l) (filter q l)).
  { apply IH. intros y Hy. apply H. now right. }
  destruct (p x) eqn:P.
  - rewrite (H x) by (auto; now left). now constructor.
  - destruct (q x); [now constructor | exact IH'].
Qed.

Lemma subsequence_length (A : Type) (l1 l2 : list A) :
  subsequence l1 l2 -> List.length l1 <= List.length l2.
Proof. induction 1; simpl; lia. Qed.

(** X16. A larger selection gives a larger view: when every value of a
    non-empty selection is in a second one, the rows of the first view
    are rows of the second, in the same order. *)
Theorem selection_monotone (df v1 v2 : DataFrame) (s1 s2 : list cell) :
  s1 <> [] ->
  incl s1 s2 ->
  df_filtered df s1 = Ok v1 ->
  df_filtered df s2 = Ok v2 ->
  subsequence (rows v1) (rows v2)
  /\ nrows v1 <= nrows v2
  /\ columns v1 = columns v2.
Proof.
  intros Hs1 Hincl H1 H2.
  assert (Hs2 : s2 <> []).
  { destruct s1 as [|c s1]; [contradiction|]. intros ->.
    apply (Hincl c). now left. }
  destruct (df_filtered_location df v1 s1 Hs1 H1) as [loc Hloc].
  rewrite (df_filtered_rows df loc s1 Hloc Hs1) in H1.
  rewrite (df_filtered_rows df loc s2 Hloc Hs2) in H2.
  injection H1 as <-. injection H2 as <-. cbn [rows columns].
  assert (Hsub : subsequence
                   (filter (fun r => member (location_of df r) s1) (rows df))
                   (filter (fun r => member (location_of df r) s2) (rows df))).
  { apply filter_weaker_subsequence. intros r _ Hm.
    apply member_In. apply Hincl. now apply member_In. }
  split; [exact Hsub|]. split; [|reflexivity].
  unfold nrows. cbn [rows]. now apply subsequence_length.
Qed.

(** The six-restaurant table under [C], then under [C; A]. *)
Lemma selection_monotone_witness :
  exists v1 v2,
    df_filtered Sample.six [Str "C"] = Ok v1
    /\ df_filtered Sample.six [Str "C"; Str "A"] = Ok v2
    /\ subsequence (rows v1) (rows v2)
    /\ nrows v1 <= nrows v2
    /\ columns v1 = columns v2.
Proof.
  eexists. eexists.
  assert (H1 : df_filtered Sample.six [Str "C"]
               = Ok (mkDF Sample.schema (skipn 3 (rows Sample.six))))
    by reflexivity.
  assert (H2 : df_filtered Sample.six [Str "C"; Str "A"]
               = Ok (mkDF Sample.schema
                       (firstn 2 (rows Sample.six)
                        ++ skipn 3 (rows Sample.six))))
    by reflexivity.
  split; [exact H1|]. split; [exact H2|].
  apply (selection_monotone Sample.six _ _ [Str "C"] [Str "C"; Str "A"]);
    [discriminate | | exact H1 | exact H2].
  intros c [<-|[]]. now left.
Defined.

(** X17. With ten distinct locations at most and no missing location in
    the view, the bar chart has one bar for each location and the bars
    account for every row: their counts add up to the number of rows. *)
Theorem bars_cover_rows (view : DataFrame) (loc : Series) :
  getitem view "location" = Ok loc ->
  ~ In NaN (values loc) ->
  List.length (unique (values loc)) <= 10 ->
  top10 loc = value_counts (values loc)
  /\ List.length (top10 loc) = List.length (unique (values loc))
  /\ total (top10 loc) = nrows view.
Proof.
  intros Hloc Hn Hu.
  assert (Hd : dropna (values loc) = values loc).
  { unfold dropna. apply filter_keeps_all.
    intros d Hd. destruct d; try reflexivity. contradiction. }
  assert (Hlen : List.length (value_counts (values loc))
                 = List.length (unique (values loc))).
  { unfold value_counts, frequencies.
    now rewrite sort_length, length_map, Hd. }
  assert (Ht : top10 loc = value_counts (values loc)).
  { unfold top10. apply firstn_all2. lia. }
  split; [exact Ht|]. rewrite Ht. split; [exact Hlen|].
  unfold value_counts. rewrite total_sort, total_frequencies_exact, Hd.
  destruct (position_getitem view "location" loc Hloc) as [i [_ ->]].
  unfold nrows. apply length_map.
Qed.

(** The bars of the six-restaurant table: three, two and one, six rows. *)
Lemma bars_cover_rows_witness :
  let loc := mkSeries object
               [Str "A"; Str "A"; Str "B"; Str "C"; Str "C"; Str "C"] in
  getitem Sample.six "location" = Ok loc
  /\ ~ In NaN (values loc)
  /\ List.length (unique (values loc)) <= 10
  /\ top10 loc = value_counts (values loc)
  /\ List.length (top10 loc) = List.length (unique (values loc))
  /\ total (top10 loc) = nrows Sample.six.
Proof.
  intro loc.
  assert (H1 : getitem Sample.six "location" = Ok loc) by reflexivity.
  assert (H2 : ~ In NaN (values loc)).
  { intro H. simpl in H.
    destruct H as [E|[E|[E|[E|[E|[E|[]]]]]]]; discriminate. }
  assert (H3 : List.length (unique (values loc)) <= 10)
    by (vm_compute; lia).
  split; [exact H1|]. split; [exact H2|]. split; [exact H3|].
  exact (bars_cover_rows Sample.six loc H1 H2 H3).
Defined.

End SelectionGrowth.
